(** * stumfixer: the daemon lifecycle of [stumfixer.py]

    A shallow embedding of [stumfixer.py] (one Python script) and the
    properties of its daemon lifecycle: single-instance start, the PID file,
    the SIGTERM handler, the control loop and its log guard, and the
    command-line dispatch.

    Python values are modelled as follows.
    - [bytes] is a list of bytes, [str] a list of Unicode code points.
    - The operating system is a record [World]: the file system as a finite
      map from paths to contents, the attributes of the process that is being
      followed, and the answers of the environment (fork, Popen, kill).
    - Statements are computations in a state-and-exception monad [M].
    - The interpreter's own behaviour at process exit (uncaught exceptions,
      [SystemExit], [atexit] callbacks, signal dispositions) is modelled by
      [py_exit] and [on_sigterm]. *)

From Stdlib Require Import ZArith NArith List Bool Lia.
From Stdlib.Strings Require Import String Ascii Byte.
From Stdlib Require Import Decimal DecimalString DecimalPos DecimalZ.
From stdpp Require Import gmap strings.

Local Open Scope Z_scope.
Local Open Scope list_scope.

(** ** Python text: [bytes], [str] and the built-ins the script uses *)

Module Text.

Abbreviation bytes := (list byte).
Abbreviation str := (list N).

(** A [str] literal of the source, as code points. *)
Definition lit (s : string) : str := map Byte.to_N (list_byte_of_string s).

(** A [bytes] literal of the source. *)
Definition blit (s : string) : bytes := list_byte_of_string s.

(** *** [bytes.decode("utf-8")]

    Strict UTF-8: shortest form only, no surrogates, nothing above U+10FFFF.
    [None] stands for [UnicodeDecodeError]. *)

Definition between (lo hi b : N) : bool := ((lo <=? b) && (b <=? hi))%N.

Definition cont (b : N) : bool := between 128 191 b.

Definition payload (b : N) : N := (b - 128)%N.

Fixpoint utf8_points (bs : list N) : option (list N) :=
  match bs with
  | [] => Some []
  | b0 :: r0 =>
    if (b0 <? 128)%N then cons b0 <$> utf8_points r0
    else if between 194 223 b0 then
      match r0 with
      | b1 :: r1 =>
        if cont b1
        then cons ((b0 - 192) * 64 + payload b1)%N <$> utf8_points r1
        else None
      | _ => None
      end
    else if between 224 239 b0 then
      match r0 with
      | b1 :: b2 :: r2 =>
        let lo := if (b0 =? 224)%N then 160%N else 128%N in
        let hi := if (b0 =? 237)%N then 159%N else 191%N in
        if between lo hi b1 && cont b2
        then cons ((b0 - 224) * 4096 + payload b1 * 64 + payload b2)%N
               <$> utf8_points r2
        else None
      | _ => None
      end
    else if between 240 244 b0 then
      match r0 with
      | b1 :: b2 :: b3 :: r3 =>
        let lo := if (b0 =? 240)%N then 144%N else 128%N in
        let hi := if (b0 =? 244)%N then 143%N else 191%N in
        if between lo hi b1 && cont b2 && cont b3
        then cons ((b0 - 240) * 262144 + payload b1 * 4096
                   + payload b2 * 64 + payload b3)%N
               <$> utf8_points r3
        else None
      | _ => None
      end
    else None
  end.

Definition decode_utf8 (b : bytes) : option str :=
  utf8_points (map Byte.to_N b).

(** *** [str.strip()], [str.startswith], slicing *)

(** [str.isspace] for one code point: the ASCII white space of Python and
    the Unicode code points of bidirectional type WS, B or S, or of
    category Zs. *)
Definition isspace (c : N) : bool :=
  between 9 13 c || between 28 32 c
  || (c =? 133)%N || (c =? 160)%N || (c =? 5760)%N
  || between 8192 8202 c || (c =? 8232)%N || (c =? 8233)%N
  || (c =? 8239)%N || (c =? 8287)%N || (c =? 12288)%N.

Fixpoint lstrip (s : str) : str :=
  match s with
  | c :: r => if isspace c then lstrip r else s
  | [] => []
  end.

Definition rstrip (s : str) : str := rev (lstrip (rev s)).

Definition strip (s : str) : str := rstrip (lstrip s).

Fixpoint startswith (s p : str) : bool :=
  match p, s with
  | [], _ => true
  | _ :: _, [] => false
  | a :: p', b :: s' => (a =? b)%N && startswith s' p'
  end.

(** One bound of a slice: a negative index counts from the end, and the
    result is clamped to [0, len]. *)
Definition clamp_index (len i : Z) : Z :=
  let j := if i <? 0 then i + len else i in
  Z.max 0 (Z.min len j).

(** [s[start:stop]] *)
Definition slice (s : str) (start stop : Z) : str :=
  let len := Z.of_nat (length s) in
  let a := clamp_index len start in
  let b := clamp_index len stop in
  firstn (Z.to_nat (b - a)) (skipn (Z.to_nat a) s).

(** *** [str(int)] and [int(str)] *)

(** [str(n)] for an [int]: decimal, with a minus sign when negative. *)
Definition str_of_int (n : Z) : string :=
  NilZero.string_of_int (Z.to_int n).

Definition isdigit (c : N) : bool := between 48 57 c.

(** The digits of a decimal literal: at least one digit, and single
    underscores between digits only. *)
Fixpoint int_digits (acc : Z) (after_digit : bool) (s : str) : option Z :=
  match s with
  | [] => if after_digit then Some acc else None
  | c :: r =>
    if isdigit c then int_digits (acc * 10 + Z.of_N (c - 48)) true r
    else if (c =? 95)%N && after_digit then int_digits acc false r
    else None
  end.

(** [int(s)] in base 10: surrounding white space is dropped, one sign is
    allowed. [None] stands for [ValueError]. Only the ASCII digits are
    taken as digits; the decimal digits of other scripts, which Python
    accepts as well, are not in this model and count as invalid. *)
Definition int_of_str (s : str) : option Z :=
  match strip s with
  | 45%N :: r => Z.opp <$> int_digits 0 false r
  | 43%N :: r => int_digits 0 false r
  | t => int_digits 0 false t
  end.

(** *** [readline] on a pipe: the lines of the output, each with its
    terminating newline, the last one possibly without. *)
Fixpoint readlines_from (cur : bytes) (b : bytes) : list bytes :=
  match b with
  | [] => match cur with [] => [] | _ => [rev cur] end
  | c :: r =>
    if Byte.eqb c x0a then rev (c :: cur) :: readlines_from [] r
    else readlines_from (c :: cur) r
  end.

Definition readlines (b : bytes) : list bytes := readlines_from [] b.

End Text.

Import Text.


(** ** The operating system, the process and the interpreter *)

Inductive errno := ENOENT | EACCES | EPERM | ESRCH | EAGAIN | ENOMEM.

(** Formatted text is kept as the template, written as the literal of the
    source is, and the values given to [str.format]. *)
Inductive value :=
| VStr (s : str)
| VInt (n : Z)
| VCtime (t : Z).   (* what time.ctime() returns when the clock reads t *)

Record text := Format { template : string; arguments : list value }.

Inductive exn :=
| SystemExit (code : Z)
| RuntimeError (msg : text)
| SystemError (msg : text)
| OSError (e : errno)
| CalledProcessError (returncode : Z)
| ValueError
| UnicodeDecodeError
| AttributeError
| IndexError.

Inductive stream := Stdin | Stdout | Stderr.

Inductive target := Terminal | File (path : string).

Inductive signal := SIGTERM.

(** What the process does to the outside, in order. *)
Inductive event :=
| Write (s : stream) (dest : target) (t : text)
    (* s.write(t), reaching the file or terminal that s is bound to *)
| Print (s : stream) (dest : target) (t : text)
    (* print(t, file=s): t and a newline *)
| Traceback (dest : target) (e : exn)
    (* the interpreter reports an uncaught exception on stderr *)
| PopenCall (argv : list str)
| KillCall (target_pid : Z) (sig : signal)
| SleepCall (secs : Z).

(** The callbacks given to [atexit.register] and the handlers given to
    [signal.signal], by name. *)
Inductive callback := RemoveFile (path : string).

Inductive handler := SigtermHandler.

Inductive disposition := SIG_DFL | SIG_PY (h : handler).

(** The answers of the environment. A fork is answered on the side of the
    process that is followed: in the parent with the child's id, or in the
    child, whose own id is given. *)
Inductive fork_result :=
| ForkError (e : errno)
| ForkParent (child : positive)
| ForkChild (self : positive).

Inductive popen_result :=
| PopenOutput (out : bytes)
| PopenError (e : errno).

Record Env := {
  env_fork : nat -> fork_result;
  env_popen : nat -> list str -> popen_result;
  env_kill : Z -> option errno
}.

Record World := {
  env : Env;
  calls : nat;                    (* calls answered by the environment *)
  clock : Z;                      (* seconds *)
  fs : gmap string bytes;         (* the files, by path *)
  pid : Z;
  cwd : string;
  umask : Z;
  session_leader : bool;
  stdin_to : target;
  stdout_to : target;
  stderr_to : target;
  atexit : list callback;         (* in the order of registration *)
  sigterm : disposition;
  trace : list event
}.

Definition set_calls (x : nat) (w : World) : World :=
  {| env := env w; calls := x; clock := clock w; fs := fs w; pid := pid w;
     cwd := cwd w; umask := umask w; session_leader := session_leader w;
     stdin_to := stdin_to w; stdout_to := stdout_to w; stderr_to := stderr_to w;
     atexit := atexit w; sigterm := sigterm w; trace := trace w |}.

Definition set_clock (x : Z) (w : World) : World :=
  {| env := env w; calls := calls w; clock := x; fs := fs w; pid := pid w;
     cwd := cwd w; umask := umask w; session_leader := session_leader w;
     stdin_to := stdin_to w; stdout_to := stdout_to w; stderr_to := stderr_to w;
     atexit := atexit w; sigterm := sigterm w; trace := trace w |}.

Definition set_fs (x : gmap string bytes) (w : World) : World :=
  {| env := env w; calls := calls w; clock := clock w; fs := x; pid := pid w;
     cwd := cwd w; umask := umask w; session_leader := session_leader w;
     stdin_to := stdin_to w; stdout_to := stdout_to w; stderr_to := stderr_to w;
     atexit := atexit w; sigterm := sigterm w; trace := trace w |}.

Definition set_pid (x : Z) (w : World) : World :=
  {| env := env w; calls := calls w; clock := clock w; fs := fs w; pid := x;
     cwd := cwd w; umask := umask w; session_leader := session_leader w;
     stdin_to := stdin_to w; stdout_to := stdout_to w; stderr_to := stderr_to w;
     atexit := atexit w; sigterm := sigterm w; trace := trace w |}.

Definition set_cwd (x : string) (w : World) : World :=
  {| env := env w; calls := calls w; clock := clock w; fs := fs w; pid := pid w;
     cwd := x; umask := umask w; session_leader := session_leader w;
     stdin_to := stdin_to w; stdout_to := stdout_to w; stderr_to := stderr_to w;
     atexit := atexit w; sigterm := sigterm w; trace := trace w |}.

Definition set_umask (x : Z) (w : World) : World :=
  {| env := env w; calls := calls w; clock := clock w; fs := fs w; pid := pid w;
     cwd := cwd w; umask := x; session_leader := session_leader w;
     stdin_to := stdin_to w; stdout_to := stdout_to w; stderr_to := stderr_to w;
     atexit := atexit w; sigterm := sigterm w; trace := trace w |}.

Definition set_session_leader (x : bool) (w : World) : World :=
  {| env := env w; calls := calls w; clock := clock w; fs := fs w; pid := pid w;
     cwd := cwd w; umask := umask w; session_leader := x;
     stdin_to := stdin_to w; stdout_to := stdout_to w; stderr_to := stderr_to w;
     atexit := atexit w; sigterm := sigterm w; trace := trace w |}.

Definition set_stdin_to (x : target) (w : World) : World :=
  {| env := env w; calls := calls w; clock := clock w; fs := fs w; pid := pid w;
     cwd := cwd w; umask := umask w; session_leader := session_leader w;
     stdin_to := x; stdout_to := stdout_to w; stderr_to := stderr_to w;
     atexit := atexit w; sigterm := sigterm w; trace := trace w |}.

Definition set_stdout_to (x : target) (w : World) : World :=
  {| env := env w; calls := calls w; clock := clock w; fs := fs w; pid := pid w;
     cwd := cwd w; umask := umask w; session_leader := session_leader w;
     stdin_to := stdin_to w; stdout_to := x; stderr_to := stderr_to w;
     atexit := atexit w; sigterm := sigterm w; trace := trace w |}.

Definition set_stderr_to (x : target) (w : World) : World :=
  {| env := env w; calls := calls w; clock := clock w; fs := fs w; pid := pid w;
     cwd := cwd w; umask := umask w; session_leader := session_leader w;
     stdin_to := stdin_to w; stdout_to := stdout_to w; stderr_to := x;
     atexit := atexit w; sigterm := sigterm w; trace := trace w |}.

Definition set_atexit (x : list callback) (w : World) : World :=
  {| env := env w; calls := calls w; clock := clock w; fs := fs w; pid := pid w;
     cwd := cwd w; umask := umask w; session_leader := session_leader w;
     stdin_to := stdin_to w; stdout_to := stdout_to w; stderr_to := stderr_to w;
     atexit := x; sigterm := sigterm w; trace := trace w |}.

Definition set_sigterm (x : disposition) (w : World) : World :=
  {| env := env w; calls := calls w; clock := clock w; fs := fs w; pid := pid w;
     cwd := cwd w; umask := umask w; session_leader := session_leader w;
     stdin_to := stdin_to w; stdout_to := stdout_to w; stderr_to := stderr_to w;
     atexit := atexit w; sigterm := x; trace := trace w |}.

Definition set_trace (x : list event) (w : World) : World :=
  {| env := env w; calls := calls w; clock := clock w; fs := fs w; pid := pid w;
     cwd := cwd w; umask := umask w; session_leader := session_leader w;
     stdin_to := stdin_to w; stdout_to := stdout_to w; stderr_to := stderr_to w;
     atexit := atexit w; sigterm := sigterm w; trace := x |}.

Definition emit (e : event) (w : World) : World :=
  set_trace (trace w ++ [e]) w.

(** *** The monad of statements *)

(** [Running]: the loop has not ended within the iterations looked at. *)
Inductive result (A : Type) :=
| Ok (a : A)
| Raise (e : exn)
| Running.

Arguments Ok {A} a.
Arguments Raise {A} e.
Arguments Running {A}.

Definition M (A : Type) : Type := World -> result A * World.

#[export] Instance M_ret : MRet M := λ A a w, (Ok a, w).

#[export] Instance M_bind : MBind M := λ A B f m w,
  match m w with
  | (Ok a, w') => f a w'
  | (Raise e, w') => (Raise e, w')
  | (Running, w') => (Running, w')
  end.

Definition raise {A} (e : exn) : M A := λ w, (Raise e, w).

(** [try: m except C as e: h e], where [C] is the set of exceptions that
    the clause names. *)
Definition try_except {A} (m : M A) (C : exn -> bool) (h : exn -> M A) : M A :=
  λ w, match m w with
       | (Raise e, w') => if C e then h e w' else (Raise e, w')
       | r => r
       end.

Definition is_OSError (e : exn) : bool :=
  match e with OSError _ => true | _ => false end.

Definition is_CalledProcessError (e : exn) : bool :=
  match e with CalledProcessError _ => true | _ => false end.

Definition is_RuntimeError (e : exn) : bool :=
  match e with RuntimeError _ => true | _ => false end.

Definition get {A} (f : World -> A) : M A := λ w, (Ok (f w), w).

Definition modify (f : World -> World) : M unit := λ w, (Ok tt, f w).

(** *** The library calls of the script *)

Definition bound_to (s : stream) (w : World) : target :=
  match s with
  | Stdin => stdin_to w
  | Stdout => stdout_to w
  | Stderr => stderr_to w
  end.

(** [s.write(t)] for [sys.stdout] and [sys.stderr]. The text is recorded
    with the place the stream is bound to; when a buffered stream hands it
    to the file is not modelled, so the contents of [fs] are what is on
    disk and change only through the file operations below. *)
Definition sys_write (s : stream) (t : text) : M unit :=
  modify (λ w, emit (Write s (bound_to s w) t) w).

(** [print(t, file=s)] *)
Definition print_to (s : stream) (t : text) : M unit :=
  modify (λ w, emit (Print s (bound_to s w) t) w).

(** [s.flush()]: nothing to do, see [sys_write]. *)
Definition sys_flush (s : stream) : M unit := mret tt.

(** [exit(code)], the helper of the [site] module: it raises
    [SystemExit(code)]. *)
Definition builtin_exit {A} (code : Z) : M A := raise (SystemExit code).

Definition time_ctime : M value := get (λ w, VCtime (clock w)).

Definition time_sleep (secs : Z) : M unit :=
  modify (λ w, emit (SleepCall secs) (set_clock (clock w + secs) w)).

Definition os_path_exists (path : string) : M bool :=
  get (λ w, match fs w !! path with Some _ => true | None => false end).

Definition os_getpid : M Z := get pid.

Definition os_fork : M Z := λ w,
  let w' := set_calls (S (calls w)) w in
  match env_fork (env w) (calls w) with
  | ForkError e => (Raise (OSError e), w')
  | ForkParent child => (Ok (Z.pos child), w')
  | ForkChild self => (Ok 0, set_session_leader false (set_pid (Z.pos self) w'))
  end.

Definition os_chdir (dir : string) : M unit := modify (set_cwd dir).

Definition os_umask (mask : Z) : M unit := modify (set_umask mask).

Definition os_setsid : M unit := modify (set_session_leader true).

(** [open(path, "rb")] and [open(path)]: the file must be there. A file
    object is modelled by its path. *)
Definition open_r (path : string) : M string := λ w,
  match fs w !! path with
  | Some _ => (Ok path, w)
  | None => (Raise (OSError ENOENT), w)
  end.

(** The files once [path] is there, empty when it was not before. *)
Definition created (path : string) (files : gmap string bytes)
  : gmap string bytes :=
  match files !! path with
  | Some _ => files
  | None => <[path := []]> files
  end.

(** [open(path, "ab")] and [open(path, "a")]: the file is created when it is
    not there. *)
Definition open_a (path : string) : M string := λ w,
  (Ok path, set_fs (created path (fs w)) w).

(** [open(path, "w")]: the file is created or emptied. *)
Definition open_w (path : string) : M string := λ w,
  (Ok path, set_fs (<[path := []]> (fs w)) w).

(** [os.dup2(f.fileno(), s.fileno())] *)
Definition os_dup2 (f : string) (s : stream) : M unit :=
  modify (match s with
          | Stdin => set_stdin_to (File f)
          | Stdout => set_stdout_to (File f)
          | Stderr => set_stderr_to (File f)
          end).

Definition contents (f : string) (w : World) : bytes :=
  default [] (fs w !! f).

(** [print(s, file=f)] for a file opened for writing. *)
Definition file_print (f : string) (s : string) : M unit :=
  modify (λ w, set_fs (<[f := contents f w ++ blit s ++ [x0a]]> (fs w)) w).

(** [f.truncate(size)] *)
Definition file_truncate (f : string) (size : nat) : M unit :=
  modify (λ w, set_fs (<[f := firstn size (contents f w)]> (fs w)) w).

(** [f.read()] of a file opened as text. *)
Definition file_read (f : string) : M str := λ w,
  match decode_utf8 (contents f w) with
  | Some s => (Ok s, w)
  | None => (Raise UnicodeDecodeError, w)
  end.

Definition os_path_getsize (path : string) : M Z := λ w,
  match fs w !! path with
  | Some c => (Ok (Z.of_nat (length c)), w)
  | None => (Raise (OSError ENOENT), w)
  end.

Definition os_remove (path : string) : M unit := λ w,
  match fs w !! path with
  | Some _ => (Ok tt, set_fs (delete path (fs w)) w)
  | None => (Raise (OSError ENOENT), w)
  end.

Definition os_kill (p : Z) (sig : signal) : M unit := λ w,
  let w' := emit (KillCall p sig) w in
  match env_kill (env w) p with
  | Some e => (Raise (OSError e), w')
  | None => (Ok tt, w')
  end.

Definition atexit_register (c : callback) : M unit :=
  modify (λ w, set_atexit (atexit w ++ [c]) w).

Definition signal_signal (sig : signal) (h : handler) : M unit :=
  modify (match sig with SIGTERM => set_sigterm (SIG_PY h) end).

Record proc := { proc_stdout : bytes }.

(** [subprocess.Popen(argv, stdout=subprocess.PIPE)]: the call is recorded,
    and the environment either starts the command, whose whole output is
    then in the pipe, or refuses with an [OSError]. *)
Definition Popen (argv : list str) : M proc := λ w,
  let w' := emit (PopenCall argv) (set_calls (S (calls w)) w) in
  match env_popen (env w) (calls w) argv with
  | PopenOutput out => (Ok {| proc_stdout := out |}, w')
  | PopenError e => (Raise (OSError e), w')
  end.

Definition bytes_decode (b : bytes) : M str :=
  match decode_utf8 b with
  | Some s => mret s
  | None => raise UnicodeDecodeError
  end.

Definition int (s : str) : M Z :=
  match int_of_str s with
  | Some n => mret n
  | None => raise ValueError
  end.

(** [l[i]] *)
Definition item (l : list str) (i : nat) : M str :=
  match nth_error l i with
  | Some x => mret x
  | None => raise IndexError
  end.

(** [for x in l: st = body st x] *)
Fixpoint for_each {A S} (body : S -> A -> M S) (st : S) (l : list A) : M S :=
  match l with
  | [] => mret st
  | x :: r => st' ← body st x; for_each body st' r
  end.

(** ** The script *)

Definition PIDFILE : string := "/tmp/stumfixer.pid".
Definition LOGFILE : string := "/tmp/stumfixer.log".
Definition MAXLOGSIZE : Z := 1000000.


Definition fork_and_leave : M unit :=
  r ← os_fork;
  if 0 <? r then raise (SystemExit 0) else mret tt.

Definition daemonize (pidfile stdin stdout stderr : string) : M unit :=
  ex ← os_path_exists pidfile;
  (if ex : bool then builtin_exit 1 else mret tt);;
  (* First fork (detaches from parent). *)
  try_except fork_and_leave is_OSError
    (λ _, raise (RuntimeError (Format "fork #1 failed." [])));;
  os_chdir "/";;
  os_umask 0;;
  os_setsid;;
  (* Second fork (relinquish session leadership). *)
  try_except fork_and_leave is_OSError
    (λ _, raise (RuntimeError (Format "fork #2 failed." [])));;
  (* Flush I/O buffers. *)
  sys_flush Stdout;;
  sys_flush Stderr;;
  (* Replace file descriptors for stdin, stdout, and stderr. *)
  f ← open_r stdin; os_dup2 f Stdin;;
  f ← open_a stdout; os_dup2 f Stdout;;
  f ← open_a stderr; os_dup2 f Stderr;;
  (* Write the PID file; which will be removed on exit. *)
  f ← open_w pidfile;
  p ← os_getpid;
  file_print f (str_of_int p);;
  atexit_register (RemoveFile pidfile);;
  (* Signal handler for termination. *)
  signal_signal SIGTERM SigtermHandler.

Definition pacmd_set_card_profile (name : str) : list str :=
  [lit "pacmd"; lit "set-card-profile"; lit "0"; name].

Definition pacmd_list_cards : list str := [lit "pacmd"; lit "list-cards"].

Definition could_not_run (e : exn) : M proc :=
  match e with
  | CalledProcessError rc =>
    raise (SystemError (Format "Could not run pacmd list-cards ({})" [VInt rc]))
  | _ => raise e
  end.

Definition switch_audio_to (active name : str) : M unit :=
  if decide (active = name) then mret tt
  else
    t ← time_ctime;
    sys_write Stdout (Format "{}: Setting card profile to {}\n" [t; VStr name]);;
    _ ← try_except (Popen (pacmd_set_card_profile name))
          is_CalledProcessError could_not_run;
    mret tt.

(** The body of the [for] loop of [get_audio_info], on the pair
    (product, active_profile). The loop reads the pipe line by line and
    leaves at the empty [bytes] of the end of the output, so it goes through
    [readlines]. *)
Definition scan_line (st : option str * option str) (line : bytes)
  : M (option str * option str) :=
  line ← bytes_decode line;
  let line := strip line in
  if startswith line (lit "active profile")
  then mret (fst st, Some (slice line 17 (-1)))
  else if startswith line (lit "device.product.name")
  then mret (Some (slice line 23 (-1)), snd st)
  else mret st.

Definition get_audio_info : M (str * option str) :=
  proc ← try_except (Popen pacmd_list_cards)
           is_CalledProcessError could_not_run;
  st ← for_each scan_line (None, None) (readlines (proc_stdout proc));
  match snd st with
  | None => raise (SystemError (Format "Active profile is none" []))
  | Some active_profile => mret (active_profile, fst st)
  end.

Definition check_log_file_size : M unit :=
  size ← os_path_getsize LOGFILE;
  if MAXLOGSIZE <? size then
    f ← open_a LOGFILE;
    file_truncate f 0;;
    t ← time_ctime;
    sys_write Stdout (Format "{}: Cleaning up log file!\n" [t])
  else mret tt.

(** [product.startswith(prefix)], where [product] may be [None]. *)
Definition attr_startswith (product : option str) (prefix : str) : M bool :=
  match product with
  | Some s => mret (startswith s prefix)
  | None => raise AttributeError
  end.

Definition analog : str := lit "output:analog-stereo+input:analog-stereo".
Definition hdmi : str := lit "output:hdmi-stereo".

(** One pass through the body of [while True]. *)
Definition iteration : M unit :=
  '(active_profile, product) ← get_audio_info;
  dell ← attr_startswith product (lit "DELL");
  (if dell : bool then switch_audio_to active_profile analog
   else
     benq ← attr_startswith product (lit "BenQ");
     if benq : bool then switch_audio_to active_profile hdmi
     else switch_audio_to active_profile analog);;
  check_log_file_size;;
  time_sleep 5.

(** [while True], looked at for [fuel] iterations. *)
Fixpoint main_loop (fuel : nat) : M unit :=
  match fuel with
  | O => λ w, (Running, w)
  | S n => iteration;; main_loop n
  end.

(** The first statement of [main]. *)
Definition banner : M unit :=
  t ← time_ctime;
  p ← os_getpid;
  sys_write Stdout
    (Format "{}: Stumfixer daemon started with pid={}\n" [t; VInt p]).

Definition main (fuel : nat) : M unit :=
  banner;;
  main_loop fuel.

Definition report_and_leave (e : exn) : M unit :=
  match e with
  | RuntimeError msg => print_to Stderr msg;; raise (SystemExit 1)
  | _ => raise e
  end.

(** The block under [if __name__ == "__main__"], with [sys.argv = argv]. *)
Definition script (argv : list str) (fuel : nat) : M unit :=
  if negb (length argv =? 2)%nat then
    a0 ← item argv 0;
    print_to Stderr (Format "Usage: {} [start|stop]" [VStr a0]);;
    raise (SystemExit 1)
  else
    a1 ← item argv 1;
    if decide (a1 = lit "start") then
      try_except (daemonize PIDFILE "/dev/null" LOGFILE LOGFILE)
        is_RuntimeError report_and_leave;;
      main fuel
    else if decide (a1 = lit "stop") then
      ex ← os_path_exists PIDFILE;
      if ex : bool then
        f ← open_r PIDFILE;
        s ← file_read f;
        n ← int s;
        os_kill n SIGTERM
      else
        print_to Stderr (Format "Not running" []);;
        raise (SystemExit 1)
    else
      print_to Stderr (Format "Unknown command {!r}" [VStr a1]);;
      raise (SystemExit 1).

(** ** The interpreter at the end of the process *)

Inductive status :=
| Exited (code : Z)
| Killed (sig : signal)
| Alive.

Definition run_callback (c : callback) : M unit :=
  match c with RemoveFile path => os_remove path end.

(** The registered callbacks are run one by one; an exception in one of
    them is reported and the next one runs. *)
Fixpoint run_exitfuncs (cs : list callback) (w : World) : World :=
  match cs with
  | [] => w
  | c :: r =>
    match run_callback c w with
    | (Raise e, w') => run_exitfuncs r (emit (Traceback (stderr_to w') e) w')
    | (_, w') => run_exitfuncs r w'
    end
  end.

(** How the process ends when the main flow ends with [r]: the exit code is
    0 on a normal end, the code of a [SystemExit], and 1 with a traceback
    for every other exception; in each case the [atexit] callbacks run,
    last registered first. *)
Definition py_exit {A} (r : result A) (w : World) : status * World :=
  match r with
  | Running => (Alive, w)
  | Ok _ => (Exited 0, run_exitfuncs (rev (atexit w)) w)
  | Raise (SystemExit code) => (Exited code, run_exitfuncs (rev (atexit w)) w)
  | Raise e =>
    let w' := emit (Traceback (stderr_to w) e) w in
    (Exited 1, run_exitfuncs (rev (atexit w')) w')
  end.



(** The whole process, from the command line to its end. *)
Definition run (argv : list str) (fuel : nat) (w : World) : status * World :=
  let '(r, w') := script argv fuel w in py_exit r w'.

(** ** Sample worlds

    A terminal session in which nothing runs yet, and the answers of an
    environment in which both forks succeed on the child's side. *)

Definition double_quote : bytes := [x22].

(** Output of [pacmd list-cards] with the HDMI profile active and a DELL
    monitor attached. *)
Definition cards_hdmi_dell : bytes :=
  [x09] ++ blit "active profile: <output:hdmi-stereo>" ++ [x0a]
  ++ [x09; x09] ++ blit "device.product.name = "
  ++ double_quote ++ blit "DELL U2412M" ++ double_quote ++ [x0a].



Definition forks_succeed (n : nat) : fork_result :=
  match n with
  | O => ForkChild 4001
  | _ => ForkChild 4002
  end.

Definition sample_env (cards : bytes) (set_profile : popen_result) : Env :=
  {| env_fork := forks_succeed;
     env_popen := λ _ argv,
       if decide (argv = pacmd_list_cards) then PopenOutput cards
       else set_profile;
     env_kill := λ _, None |}.

Definition terminal_world (e : Env) (files : gmap string bytes) : World :=
  {| env := e; calls := 0; clock := 1700000000; fs := files; pid := 4000;
     cwd := "/home/user"; umask := 18; session_leader := false;
     stdin_to := Terminal; stdout_to := Terminal; stderr_to := Terminal;
     atexit := []; sigterm := SIG_DFL; trace := [] |}.

Definition quiet_env : Env := sample_env cards_hdmi_dell (PopenOutput []).

(** Nothing runs: there is no PID file. *)
Definition idle_world : World :=
  terminal_world quiet_env {[ "/dev/null" := [] ]}.

(** An instance runs with process id 4002. *)
Definition busy_world : World :=
  terminal_world quiet_env
    (<[PIDFILE := blit "4002" ++ [x0a]]> {[ "/dev/null" := [] ]}).

(** The daemon's view once [daemonize] is through, with a log file of
    [size] bytes on disk. *)
Definition daemon_world_in (e : Env) (size : Z) : World :=
  {| env := e; calls := 2; clock := 1700000000;
     fs := <[LOGFILE := repeat x2e (Z.to_nat size)]>
             (<[PIDFILE := blit "4002" ++ [x0a]]> {[ "/dev/null" := [] ]});
     pid := 4002; cwd := "/"; umask := 0; session_leader := false;
     stdin_to := File "/dev/null"; stdout_to := File LOGFILE;
     stderr_to := File LOGFILE;
     atexit := [RemoveFile PIDFILE]; sigterm := SIG_PY SigtermHandler;
     trace := [] |}.

Definition daemon_world (size : Z) : World := daemon_world_in quiet_env size.




(** ** The vocabulary of the properties *)

(** The [KillCall] events of a trace. *)
Definition kills (tr : list event) : list (Z * signal) :=
  omap (λ e, match e with KillCall p s => Some (p, s) | _ => None end) tr.

Definition usage_line (a0 : str) : text :=
  Format "Usage: {} [start|stop]" [VStr a0].

Definition unknown_command_line (a1 : str) : text :=
  Format "Unknown command {!r}" [VStr a1].

(** C8, as the claim states it: whatever is wrong with the command line,
    the usage line is printed on the error stream and the exit code is 1. *)
Definition prints_usage (argv : list str) (w : World) : Prop :=
  ∃ a0, nth_error argv 0 = Some a0
        ∧ run argv 0 w
          = (Exited 1, emit (Print Stderr (stderr_to w) (usage_line a0)) w).

Definition cleanup_notice (w : World) : event :=
  Write Stdout (stdout_to w)
    (Format "{}: Cleaning up log file!\n" [VCtime (clock w)]).

Definition change_line (w : World) (name : str) : event :=
  Write Stdout (stdout_to w)
    (Format "{}: Setting card profile to {}\n" [VCtime (clock w); VStr name]).

(** What [switch_audio_to] leaves behind when the profiles differ: the
    line, then the call of [pacmd set-card-profile]. *)
Definition switched (w : World) (name : str) : World :=
  emit (PopenCall (pacmd_set_card_profile name))
    (set_calls (S (calls w)) (emit (change_line w name) w)).

(** What [scan_line] tests on a line: whether the line, decoded and
    stripped, starts with [prefix]. [None] when the line is not UTF-8. *)
Definition has_prefix (prefix : str) (line : bytes) : option bool :=
  (λ s, startswith (strip s) prefix) <$> decode_utf8 line.

(** The world after [pacmd list-cards] was called. *)
Definition observed (w : World) : World :=
  emit (PopenCall pacmd_list_cards) (set_calls (S (calls w)) w).

Definition no_active_profile : exn :=
  SystemError (Format "Active profile is none" []).

(** The profile that [main] asks for, given the product name. *)
Definition wanted (product : str) : str :=
  if startswith product (lit "DELL") then analog
  else if startswith product (lit "BenQ") then hdmi
  else analog.



(** The child's side of a fork. *)
Definition forked (self : positive) (w : World) : World :=
  set_session_leader false (set_pid (Z.pos self) (set_calls (S (calls w)) w)).

(** [os.chdir("/")], [os.umask(0)], [os.setsid()]. *)
Definition in_own_session (w : World) : World :=
  set_session_leader true (set_umask 0 (set_cwd "/" w)).

(** The world that a successful [daemonize] of the script leaves, where
    [self] is the process id of the second child. *)
Definition daemonized (w0 : World) (self : positive) : World :=
  {| env := env w0; calls := S (S (calls w0)); clock := clock w0;
     fs := <[PIDFILE := blit (str_of_int (Z.pos self)) ++ [x0a]]>
             (created LOGFILE (fs w0));
     pid := Z.pos self; cwd := "/"; umask := 0; session_leader := false;
     stdin_to := File "/dev/null"; stdout_to := File LOGFILE;
     stderr_to := File LOGFILE;
     atexit := atexit w0 ++ [RemoveFile PIDFILE];
     sigterm := SIG_PY SigtermHandler; trace := trace w0 |}.

(** The code points of the digits of [d]. *)
Fixpoint digits_of (d : uint) : str :=
  match d with
  | Nil => []
  | D0 d => 48%N :: digits_of d
  | D1 d => 49%N :: digits_of d
  | D2 d => 50%N :: digits_of d
  | D3 d => 51%N :: digits_of d
  | D4 d => 52%N :: digits_of d
  | D5 d => 53%N :: digits_of d
  | D6 d => 54%N :: digits_of d
  | D7 d => 55%N :: digits_of d
  | D8 d => 56%N :: digits_of d
  | D9 d => 57%N :: digits_of d
  end.

(** The number that the digits of [d] denote after [acc]. *)
Fixpoint uint_value (d : uint) (acc : Z) : Z :=
  match d with
  | Nil => acc
  | D0 d => uint_value d (acc * 10)
  | D1 d => uint_value d (acc * 10 + 1)
  | D2 d => uint_value d (acc * 10 + 2)
  | D3 d => uint_value d (acc * 10 + 3)
  | D4 d => uint_value d (acc * 10 + 4)
  | D5 d => uint_value d (acc * 10 + 5)
  | D6 d => uint_value d (acc * 10 + 6)
  | D7 d => uint_value d (acc * 10 + 7)
  | D8 d => uint_value d (acc * 10 + 8)
  | D9 d => uint_value d (acc * 10 + 9)
  end.

(** One statement of [main], whatever its outcome. *)
Inductive daemon_step (w : World) : World -> Prop :=
| step_banner : daemon_step w (snd (banner w))
| step_observe : daemon_step w (snd (get_audio_info w))
| step_apply active name :
    daemon_step w (snd (switch_audio_to active name w))
| step_guard : daemon_step w (snd (check_log_file_size w))
| step_sleep : daemon_step w (snd (time_sleep 5 w)).

(** The worlds that the daemon passes through: [daemonize] has returned in
    a process started in [w0], where nothing was registered with [atexit]
    yet, and any number of statements of [main] have run since. *)
Definition daemon_at (w0 w : World) : Prop :=
  atexit w0 = []
  ∧ ∃ w1, daemonize PIDFILE "/dev/null" LOGFILE LOGFILE w0 = (Ok tt, w1)
          ∧ rtc daemon_step w1 w.

(** What the statements of [main] leave as it is. *)
Definition daemon_ready (w : World) : Prop :=
  sigterm w = SIG_PY SigtermHandler
  ∧ atexit w = [RemoveFile PIDFILE]
  ∧ is_Some (fs w !! PIDFILE)
  ∧ stdout_to w = File LOGFILE.



(** ** Further sample worlds *)

(** A terminal session with the given answers to [os.fork]. *)
Definition fork_world (forks : nat -> fork_result) : World :=
  terminal_world
    {| env_fork := forks;
       env_popen := λ _ _, PopenOutput [];
       env_kill := λ _, None |}
    {[ "/dev/null" := [] ]}.

(** No process can be started at all. *)
Definition first_fork_fails (n : nat) : fork_result := ForkError EAGAIN.

(** The first fork succeeds, the second does not. *)
Definition second_fork_fails (n : nat) : fork_result :=
  match n with
  | O => ForkChild 4001
  | _ => ForkError EAGAIN
  end.

(** The side of the process that called [start]. *)
Definition first_fork_parent (n : nat) : fork_result := ForkParent 4001.

(** The side of the first child. *)
Definition second_fork_parent (n : nat) : fork_result :=
  match n with
  | O => ForkChild 4001
  | _ => ForkParent 4002
  end.

(** ** Further vocabulary *)

(** How a line that names the active profile starts, up to the name. *)
Definition profile_head : str := lit "active profile: <".

(** How a line that names a product starts, up to the name: the key, the
    equals sign and the opening double quote. *)
Definition product_head : str := lit "device.product.name = " ++ [34%N].

(** What [scan_line] takes from a line as the profile and as the product. *)
Definition profile_of (line : bytes) : option str :=
  (λ s, slice (strip s) 17 (-1)) <$> decode_utf8 line.

Definition product_of (line : bytes) : option str :=
  (λ s, slice (strip s) 23 (-1)) <$> decode_utf8 line.

(** The lines of [pacmd list-cards] that [get_audio_info] looks for. *)
Definition profile_line (name : string) : bytes :=
  [x09] ++ blit "active profile: <" ++ blit name ++ blit ">" ++ [x0a].

Definition product_line (name : string) : bytes :=
  [x09; x09] ++ blit "device.product.name = " ++ double_quote
  ++ blit name ++ double_quote ++ [x0a].

(** Output of [pacmd list-cards] for two cards: the first with a BenQ
    monitor, the second, listed last, with a DELL monitor. *)
Definition cards_two_monitors : bytes :=
  profile_line "output:analog-stereo" ++ product_line "BenQ GL2450"
  ++ profile_line "output:hdmi-stereo" ++ product_line "DELL U2412M".


(** [pacmd list-cards] lists two cards. *)
Definition two_monitors_world : World :=
  daemon_world_in (sample_env cards_two_monitors (PopenOutput [])) 0.









(** The PID file names process 4002, which is gone. *)
Definition stale_world : World :=
  terminal_world
    {| env_fork := forks_succeed;
       env_popen := λ _ _, PopenOutput [];
       env_kill := λ _, Some ESRCH |}
    (<[PIDFILE := blit "4002" ++ [x0a]]> {[ "/dev/null" := [] ]}).


(** * Properties *)

(** ** Stepping through the monad *)

Lemma bind_ok {A B} (m : M A) (f : A -> M B) w a w' :
  m w = (Ok a, w') -> (m ≫= f) w = f a w'.
Proof. intros H. unfold mbind, M_bind. now rewrite H. Qed.

Lemma bind_raise {A B} (m : M A) (f : A -> M B) w e w' :
  m w = (Raise e, w') -> (m ≫= f) w = (Raise e, w').
Proof. intros H. unfold mbind, M_bind. now rewrite H. Qed.

Lemma bind_running {A B} (m : M A) (f : A -> M B) w w' :
  m w = (Running, w') -> (m ≫= f) w = (Running, w').
Proof. intros H. unfold mbind, M_bind. now rewrite H. Qed.

Lemma bind_modify {B} (g : World -> World) (f : unit -> M B) w :
  (modify g ≫= f) w = f tt (g w).
Proof. reflexivity. Qed.

Lemma bind_get {A B} (g : World -> A) (f : A -> M B) w :
  (get g ≫= f) w = f (g w) w.
Proof. reflexivity. Qed.

Lemma bind_ret {A B} (a : A) (f : A -> M B) w : (mret a ≫= f) w = f a w.
Proof. reflexivity. Qed.

Lemma bind_open_a {B} (path : string) (f : string -> M B) w :
  (open_a path ≫= f) w = f path (set_fs (created path (fs w)) w).
Proof. reflexivity. Qed.

#[local] Arguments lit : simpl never.
#[local] Arguments blit : simpl never.
#[local] Arguments str_of_int : simpl never.
#[local] Arguments PIDFILE : simpl never.
#[local] Arguments LOGFILE : simpl never.
#[local] Arguments MAXLOGSIZE : simpl never.
#[local] Arguments analog : simpl never.
#[local] Arguments hdmi : simpl never.
#[local] Arguments pacmd_list_cards : simpl never.
#[local] Arguments pacmd_set_card_profile : simpl never.

(** Unfolds the monad and the calls that only read or extend the world. *)
Ltac mrun :=
  unfold mbind, M_bind, mret, M_ret, raise, builtin_exit, modify, get,
    try_except, print_to, sys_write, sys_flush, time_ctime, time_sleep,
    os_getpid, os_path_exists, item; cbn.

(** ** The command line *)

Lemma run_wrong_arity (w : World) (a0 : str) (rest : list str) (fuel : nat) :
  atexit w = [] -> length rest <> 1%nat ->
  run (a0 :: rest) fuel w
  = (Exited 1, emit (Print Stderr (stderr_to w) (usage_line a0)) w).
Proof.
  intros Hat Hlen. unfold run, script.
  destruct (Nat.eqb_spec (length (a0 :: rest)) 2) as [E|E];
    [simpl in E; lia|].
  mrun. now rewrite Hat.
Qed.

Lemma run_unknown_command (w : World) (a0 a1 : str) (fuel : nat) :
  atexit w = [] -> a1 <> lit "start" -> a1 <> lit "stop" ->
  run [a0; a1] fuel w
  = (Exited 1, emit (Print Stderr (stderr_to w) (unknown_command_line a1)) w).
Proof.
  intros Hat H1 H2. unfold run, script. mrun.
  destruct (decide (a1 = lit "start")) as [E|_]; [contradiction|].
  destruct (decide (a1 = lit "stop")) as [E|_]; [contradiction|].
  cbn. now rewrite Hat.
Qed.

(** C8, counterexample: [stumfixer.py restart] has a single argument that
    is neither [start] nor [stop], and the usage line is not what is
    printed. *)
Lemma unknown_command_is_not_usage :
  ¬ prints_usage [lit "stumfixer.py"; lit "restart"] idle_world.
Proof.
  intros (a0 & Ha0 & Hrun).
  injection Ha0 as <-.
  rewrite run_unknown_command in Hrun by (reflexivity || discriminate).
  discriminate Hrun.
Qed.

(** C8, amended: a command line with no argument or with more than one
    prints the usage line on the error stream; a single argument other than
    [start] and [stop] prints [Unknown command] with that argument instead;
    in both cases nothing else happens and the exit code is 1. *)
Theorem bad_command_line (w : World) (a0 : str) (rest : list str) (fuel : nat) :
  atexit w = [] ->
  (length rest <> 1%nat ->
   run (a0 :: rest) fuel w
   = (Exited 1, emit (Print Stderr (stderr_to w) (usage_line a0)) w))
  ∧ (∀ a1, rest = [a1] -> a1 <> lit "start" -> a1 <> lit "stop" ->
     run (a0 :: rest) fuel w
     = (Exited 1,
        emit (Print Stderr (stderr_to w) (unknown_command_line a1)) w)).
Proof.
  intros Hat. split.
  - intros Hlen. now apply run_wrong_arity.
  - intros a1 -> H1 H2. now apply run_unknown_command.
Qed.

Lemma bad_command_line_witness :
  run [lit "stumfixer.py"] 3 idle_world
  = (Exited 1,
     emit (Print Stderr Terminal (usage_line (lit "stumfixer.py"))) idle_world)
  ∧ run [lit "stumfixer.py"; lit "restart"] 3 idle_world
    = (Exited 1,
       emit (Print Stderr Terminal (unknown_command_line (lit "restart")))
         idle_world).
Proof.
  split.
  - apply (bad_command_line idle_world (lit "stumfixer.py") [] 3);
      [reflexivity | discriminate].
  - apply (bad_command_line idle_world (lit "stumfixer.py") [lit "restart"] 3);
      [reflexivity | reflexivity | discriminate | discriminate].
Defined.

(** ** Stop *)

(** C7: [stop] without a PID file prints [Not running] on the error stream
    and exits with code 1; no signal is sent and nothing else changes. *)
Theorem stop_when_not_running (w : World) (a0 : str) (fuel : nat) :
  atexit w = [] ->
  fs w !! PIDFILE = None ->
  let line := Print Stderr (stderr_to w) (Format "Not running" []) in
  run [a0; lit "stop"] fuel w = (Exited 1, emit line w)
  ∧ kills (trace (emit line w)) = kills (trace w)
  ∧ fs (emit line w) = fs w.
Proof.
  intros Hat Hpid line. split; [|split].
  - unfold run, script. mrun.
    destruct (decide (lit "stop" = lit "start")) as [E|_]; [discriminate E|].
    destruct (decide (lit "stop" = lit "stop")) as [_|E]; [|contradiction].
    rewrite Hpid. cbn. now rewrite Hat.
  - unfold kills. cbn. rewrite omap_app. cbn. now rewrite app_nil_r.
  - reflexivity.
Qed.

Lemma stop_when_not_running_witness :
  let line := Print Stderr Terminal (Format "Not running" []) in
  run [lit "stumfixer.py"; lit "stop"] 0 idle_world
  = (Exited 1, emit line idle_world)
  ∧ kills (trace (emit line idle_world)) = kills (trace idle_world)
  ∧ fs (emit line idle_world) = fs idle_world.
Proof.
  apply (stop_when_not_running idle_world (lit "stumfixer.py") 0);
    reflexivity.
Defined.

(** ** Start while an instance runs *)

(** C2: [start] with the PID file in place. The process exits with code 1
    and the world is exactly what it was: the PID file is untouched, and
    nothing is printed on any stream. *)
Theorem start_when_running_is_silent (w : World) (a0 : str) (fuel : nat) :
  atexit w = [] ->
  is_Some (fs w !! PIDFILE) ->
  run [a0; lit "start"] fuel w = (Exited 1, w).
Proof.
  intros Hat [c Hc]. unfold run, script. mrun.
  destruct (decide (lit "start" = lit "start")) as [_|E]; [|contradiction].
  unfold daemonize. mrun. rewrite Hc. cbn. now rewrite Hat.
Qed.

Lemma start_when_running_is_silent_witness :
  run [lit "stumfixer.py"; lit "start"] 1 busy_world = (Exited 1, busy_world).
Proof.
  apply (start_when_running_is_silent busy_world (lit "stumfixer.py") 1).
  - reflexivity.
  - exists (blit "4002" ++ [x0a]). reflexivity.
Defined.

(** ** The log guard *)

(** Every way through [check_log_file_size]. *)
Lemma check_log_file_size_cases (w : World) :
  check_log_file_size w
  = match fs w !! LOGFILE with
    | None => (Raise (OSError ENOENT), w)
    | Some c =>
      if MAXLOGSIZE <? Z.of_nat (length c)
      then (Ok tt,
            emit (cleanup_notice w) (set_fs (<[LOGFILE := []]> (fs w)) w))
      else (Ok tt, w)
    end.
Proof.
  unfold check_log_file_size, os_path_getsize.
  unfold mbind at 1, M_bind at 1.
  destruct (fs w !! LOGFILE) as [c|] eqn:Hc; [|reflexivity].
  destruct (MAXLOGSIZE <? Z.of_nat (length c)); [|reflexivity].
  unfold file_truncate, time_ctime, sys_write, contents.
  rewrite bind_open_a, bind_modify, bind_get.
  unfold created. cbn [fs set_fs]. rewrite Hc. reflexivity.
Qed.



(** ** Observing the sound card *)

Lemma scan_line_other (st : option str * option str) (line : bytes) w :
  has_prefix (lit "active profile") line = Some false ->
  has_prefix (lit "device.product.name") line = Some false ->
  scan_line st line w = (Ok st, w).
Proof.
  unfold has_prefix, scan_line, bytes_decode. intros H1 H2.
  destruct (decode_utf8 line) as [s|]; [|discriminate]. mrun.
  injection H1 as ->. injection H2 as ->. reflexivity.
Qed.

Lemma scan_line_profile (st : option str * option str) (line : bytes) w :
  has_prefix (lit "active profile") line = Some true ->
  ∃ a, scan_line st line w = (Ok (fst st, Some a), w).
Proof.
  unfold has_prefix, scan_line, bytes_decode. intros H1.
  destruct (decode_utf8 line) as [s|]; [|discriminate]. mrun.
  injection H1 as ->. eexists. reflexivity.
Qed.

Lemma scan_line_product (st : option str * option str) (line : bytes) w :
  has_prefix (lit "active profile") line = Some false ->
  has_prefix (lit "device.product.name") line = Some true ->
  ∃ p, scan_line st line w = (Ok (Some p, snd st), w).
Proof.
  unfold has_prefix, scan_line, bytes_decode. intros H1 H2.
  destruct (decode_utf8 line) as [s|]; [|discriminate]. mrun.
  injection H1 as ->. injection H2 as ->. eexists. reflexivity.
Qed.

(** Without a profile line the scan never sets [active_profile]. *)
Lemma scan_without_profile (lines : list bytes) :
  Forall (λ l, has_prefix (lit "active profile") l = Some false) lines ->
  ∀ st w, ∃ p, for_each scan_line st lines w = (Ok (p, snd st), w).
Proof.
  induction 1 as [|l lines Hl _ IH]; intros st w.
  - exists (fst st). now destruct st.
  - cbn [for_each].
    destruct (has_prefix (lit "device.product.name") l) as [[|]|] eqn:Hp.
    + destruct (scan_line_product st l w Hl Hp) as [p Hs].
      rewrite (bind_ok _ _ _ _ _ Hs). apply (IH (Some p, snd st)).
    + rewrite (bind_ok _ _ _ _ _ (scan_line_other st l w Hl Hp)). apply IH.
    + unfold has_prefix in Hl, Hp.
      destruct (decode_utf8 l); discriminate.
Qed.

(** Without a product line the scan never sets [product], and a profile
    line sets [active_profile]. *)
Lemma scan_without_product (lines : list bytes) :
  Forall (λ l, has_prefix (lit "device.product.name") l = Some false) lines ->
  ∀ st w, ∃ a, for_each scan_line st lines w = (Ok (fst st, a), w)
               ∧ (is_Some (snd st) -> is_Some a)
               ∧ (Exists (λ l, has_prefix (lit "active profile") l = Some true)
                    lines -> is_Some a).
Proof.
  induction 1 as [|l lines Hl _ IH]; intros st w.
  - exists (snd st). split; [now destruct st|]. split; [tauto|].
    intros HE. inversion HE.
  - cbn [for_each].
    destruct (has_prefix (lit "active profile") l) as [[|]|] eqn:Ha.
    + destruct (scan_line_profile st l w Ha) as [a Hs].
      rewrite (bind_ok _ _ _ _ _ Hs).
      destruct (IH (fst st, Some a) w) as (a' & Hrun & Hkeep & _).
      exists a'. split; [exact Hrun|].
      split; intros _; apply Hkeep; cbn; eauto.
    + rewrite (bind_ok _ _ _ _ _ (scan_line_other st l w Ha Hl)).
      destruct (IH st w) as (a' & Hrun & Hkeep & Hex).
      exists a'. split; [exact Hrun|]. split; [exact Hkeep|].
      intros HE. inversion HE as [? ? Hhd|? ? Htl]; subst.
      * rewrite Ha in Hhd. discriminate.
      * now apply Hex.
    + unfold has_prefix in Hl, Ha.
      destruct (decode_utf8 l); discriminate.
Qed.

Lemma get_audio_info_scan (w : World) (out : bytes) :
  env_popen (env w) (calls w) pacmd_list_cards = PopenOutput out ->
  get_audio_info w
  = (st ← for_each scan_line (None, None) (readlines out);
     match snd st with
     | None => raise no_active_profile
     | Some active_profile => mret (active_profile, fst st)
     end) (observed w).
Proof.
  intros Hout. unfold get_audio_info, Popen, try_except.
  unfold mbind at 1, M_bind at 1. rewrite Hout. reflexivity.
Qed.







(** ** Applying a profile *)

Lemma switch_audio_to_differ (w : World) (active name : str) :
  active <> name ->
  switch_audio_to active name w
  = (match env_popen (env w) (calls w) (pacmd_set_card_profile name) with
     | PopenOutput _ => Ok tt
     | PopenError e => Raise (OSError e)
     end, switched w name).
Proof.
  intros Hne. unfold switch_audio_to.
  destruct (decide (active = name)) as [E|_]; [contradiction|].
  unfold Popen. mrun.
  now destruct (env_popen (env w) (calls w) (pacmd_set_card_profile name)).
Qed.

Lemma iteration_observed (w w1 : World) (active product : str) :
  get_audio_info w = (Ok (active, Some product), w1) ->
  iteration w
  = (switch_audio_to active (wanted product);;
     check_log_file_size;; time_sleep 5) w1.
Proof.
  intros Hget. unfold iteration. rewrite (bind_ok _ _ _ _ _ Hget).
  unfold attr_startswith, wanted.
  unfold mbind at 1, M_bind at 1, mret at 1, M_ret at 1.
  destruct (startswith product (lit "DELL")); [reflexivity|].
  unfold mbind at 2, M_bind at 2, mret at 1, M_ret at 1.
  unfold mbind at 1, M_bind at 1.
  destruct (startswith product (lit "BenQ")); reflexivity.
Qed.



(** ** A failing [pacmd set-card-profile] *)




(** ** Becoming a daemon *)

Lemma created_idem (path : string) (files : gmap string bytes) :
  created path (created path files) = created path files.
Proof.
  unfold created. destruct (files !! path) eqn:E.
  - now rewrite E.
  - now rewrite lookup_insert_eq.
Qed.

Lemma fork_and_leave_cases (w : World) (msg : string) :
  try_except fork_and_leave is_OSError
    (λ _, raise (RuntimeError (Format msg []))) w
  = match env_fork (env w) (calls w) with
    | ForkError _ =>
      (Raise (RuntimeError (Format msg [])), set_calls (S (calls w)) w)
    | ForkParent _ => (Raise (SystemExit 0), set_calls (S (calls w)) w)
    | ForkChild self => (Ok tt, forked self w)
    end.
Proof.
  unfold try_except, fork_and_leave, os_fork, mbind, M_bind.
  destruct (env_fork (env w) (calls w)); reflexivity.
Qed.

(** Every way through [daemonize], as the script calls it. *)
Lemma daemonize_cases (w0 : World) :
  daemonize PIDFILE "/dev/null" LOGFILE LOGFILE w0
  = match fs w0 !! PIDFILE with
    | Some _ => (Raise (SystemExit 1), w0)
    | None =>
      match env_fork (env w0) (calls w0) with
      | ForkError _ =>
        (Raise (RuntimeError (Format "fork #1 failed." [])),
         set_calls (S (calls w0)) w0)
      | ForkParent _ => (Raise (SystemExit 0), set_calls (S (calls w0)) w0)
      | ForkChild p1 =>
        let w1 := in_own_session (forked p1 w0) in
        match env_fork (env w0) (S (calls w0)) with
        | ForkError _ =>
          (Raise (RuntimeError (Format "fork #2 failed." [])),
           set_calls (S (calls w1)) w1)
        | ForkParent _ => (Raise (SystemExit 0), set_calls (S (calls w1)) w1)
        | ForkChild p2 =>
          match fs w0 !! "/dev/null" with
          | None => (Raise (OSError ENOENT), forked p2 w1)
          | Some _ => (Ok tt, daemonized w0 p2)
          end
        end
      end
    end.
Proof.
  unfold daemonize.
  unfold mbind at 1, M_bind at 1, os_path_exists at 1, get at 1.
  destruct (fs w0 !! PIDFILE) eqn:Hpid; [reflexivity|].
  rewrite bind_ret.
  unfold mbind at 1, M_bind at 1. rewrite fork_and_leave_cases.
  destruct (env_fork (env w0) (calls w0)) as [e1|c1|p1] eqn:Hf1;
    [reflexivity|reflexivity|].
  unfold os_chdir, os_umask, os_setsid. rewrite !bind_modify.
  fold (in_own_session (forked p1 w0)).
  set (w1 := in_own_session (forked p1 w0)).
  unfold mbind at 1, M_bind at 1. rewrite fork_and_leave_cases.
  change (env_fork (env w1) (calls w1)) with (env_fork (env w0) (S (calls w0))).
  destruct (env_fork (env w0) (S (calls w0))) as [e2|c2|p2] eqn:Hf2;
    [reflexivity|reflexivity|].
  unfold sys_flush. rewrite !bind_ret.
  unfold mbind at 1, M_bind at 1, open_r at 1.
  change (fs (forked p2 w1)) with (fs w0).
  destruct (fs w0 !! "/dev/null") eqn:Hnull; [|reflexivity].
  unfold os_dup2, open_w, os_getpid, file_print, atexit_register,
    signal_signal, contents.
  rewrite bind_modify, bind_open_a, bind_modify, bind_open_a, bind_modify.
  unfold mbind at 1, M_bind at 1. rewrite bind_get, !bind_modify.
  unfold modify. f_equal. unfold daemonized, w1, in_own_session, forked.
  cbn [fs pid atexit set_fs set_sigterm set_atexit set_stdin_to set_stdout_to
       set_stderr_to set_session_leader set_pid set_calls set_umask set_cwd
       env calls clock cwd umask session_leader stdin_to stdout_to stderr_to
       sigterm trace].
  rewrite created_idem, lookup_insert_eq, insert_insert_eq.
  reflexivity.
Qed.

(** ** Writing and reading a process id *)

Lemma lit_string_of_uint (d : uint) :
  lit (NilEmpty.string_of_uint d) = digits_of d.
Proof.
  unfold lit. induction d; cbn; [reflexivity|..]; f_equal; exact IHd.
Qed.

Lemma int_digits_of (d : uint) : ∀ acc b,
  (b = true ∨ d <> Nil) ->
  int_digits acc b (digits_of d) = Some (uint_value d acc).
Proof.
  induction d; intros acc b Hb;
    try (cbn; rewrite ?Z.add_0_r; apply IHd; now left).
  destruct Hb as [->|Hb]; [reflexivity|contradiction].
Qed.

Lemma uint_value_pos (d : uint) : ∀ p,
  uint_value d (Z.pos p) = Z.pos (Pos.of_uint_acc d p).
Proof.
  induction d; intros p; cbn [uint_value Pos.of_uint_acc];
    [reflexivity|..]; rewrite <- IHd; f_equal; lia.
Qed.

Lemma uint_value_0 (d : uint) : uint_value d 0 = Z.of_uint d.
Proof.
  unfold Z.of_uint.
  induction d; cbn [uint_value Pos.of_uint]; change (0 * 10) with 0;
    [reflexivity | exact IHd | ..];
    change (0 + ?k) with k; rewrite uint_value_pos; reflexivity.
Qed.

Lemma utf8_points_ascii (s : list N) :
  Forall (λ c, (c <? 128)%N = true) s -> utf8_points s = Some s.
Proof.
  induction 1 as [|c s Hc _ IH]; [reflexivity|].
  cbn [utf8_points]. now rewrite Hc, IH.
Qed.

Lemma lstrip_id (s : str) :
  Forall (λ c, isspace c = false) s -> lstrip s = s.
Proof. destruct 1 as [|c s Hc _]; [reflexivity|]. cbn. now rewrite Hc. Qed.

(** [strip] takes the newline at the end of a line without white space. *)
Lemma strip_line (s : str) :
  Forall (λ c, isspace c = false) s -> strip (s ++ [10%N]) = s.
Proof.
  intros Hs. unfold strip, rstrip. destruct s as [|c r]; [reflexivity|].
  assert (Hhead : lstrip ((c :: r) ++ [10%N]) = (c :: r) ++ [10%N]).
  { cbn. inversion Hs as [|? ? Hc _]. now rewrite Hc. }
  rewrite Hhead, rev_unit. cbn [lstrip].
  change (isspace 10) with true. cbn match.
  rewrite lstrip_id by (apply Forall_rev; exact Hs).
  apply rev_involutive.
Qed.

Lemma digits_of_ascii (d : uint) :
  Forall (λ c, (c <? 128)%N = true) (digits_of d).
Proof. induction d; constructor; (reflexivity || assumption). Qed.

Lemma digits_of_nonspace (d : uint) :
  Forall (λ c, isspace c = false) (digits_of d).
Proof. induction d; constructor; (reflexivity || assumption). Qed.

Lemma string_of_uint_nonnil (d : uint) :
  d <> Nil -> NilZero.string_of_uint d = NilEmpty.string_of_uint d.
Proof. destruct d; [contradiction|reflexivity..]. Qed.

(** What [str] gives for an [int]: the digits, after a minus sign when the
    number is negative. *)
Lemma lit_str_of_int (n : Z) :
  ∃ d, d <> Nil ∧ Z.of_uint d = Z.abs n
       ∧ lit (str_of_int n)
         = if n <? 0 then 45%N :: digits_of d else digits_of d.
Proof.
  unfold str_of_int. destruct n as [|p|p]; cbn [Z.to_int Z.ltb Z.compare].
  - exists (D0 Nil). repeat split. discriminate.
  - exists (Pos.to_uint p). split; [apply Unsigned.to_uint_nonnil|].
    split.
    + unfold Z.of_uint. now rewrite DecimalPos.Unsigned.of_to.
    + cbn [NilZero.string_of_int].
      rewrite string_of_uint_nonnil by apply Unsigned.to_uint_nonnil.
      apply lit_string_of_uint.
  - exists (Pos.to_uint p). split; [apply Unsigned.to_uint_nonnil|].
    split.
    + unfold Z.of_uint. now rewrite DecimalPos.Unsigned.of_to.
    + cbn [NilZero.string_of_int].
      rewrite string_of_uint_nonnil by apply Unsigned.to_uint_nonnil.
      change (lit (String "-" ?s)) with (45%N :: lit s).
      f_equal. apply lit_string_of_uint.
Qed.

Lemma int_of_digits (d : uint) :
  d <> Nil -> int_of_str (digits_of d ++ [10%N]) = Some (Z.of_uint d).
Proof.
  intros Hd. unfold int_of_str.
  rewrite strip_line by apply digits_of_nonspace.
  rewrite <- uint_value_0, <- (int_digits_of d 0 false) by now right.
  destruct d; [contradiction|reflexivity..].
Qed.

Lemma int_of_minus_digits (d : uint) :
  d <> Nil ->
  int_of_str ((45%N :: digits_of d) ++ [10%N]) = Some (- Z.of_uint d).
Proof.
  intros Hd. unfold int_of_str.
  rewrite strip_line
    by (constructor; [reflexivity|apply digits_of_nonspace]).
  rewrite (int_digits_of d 0 false) by now right.
  now rewrite uint_value_0.
Qed.

(** What [print(n, file=f)] writes for an [int] is read back by [f.read()]
    and [int] as [n]. *)
Lemma int_round_trip (n : Z) :
  ∃ s, decode_utf8 (blit (str_of_int n) ++ [x0a]) = Some s
       ∧ int_of_str s = Some n.
Proof.
  destruct (lit_str_of_int n) as (d & Hd & Hval & Hlit).
  exists (lit (str_of_int n) ++ [10%N]). split.
  - unfold decode_utf8. rewrite map_app. fold (lit (str_of_int n)).
    apply utf8_points_ascii. apply Forall_app. split; [|repeat constructor].
    rewrite Hlit. destruct (n <? 0);
      [constructor; [reflexivity|]|]; apply digits_of_ascii.
  - rewrite Hlit. destruct (Z.ltb_spec n 0).
    + rewrite int_of_minus_digits by assumption. f_equal. lia.
    + rewrite int_of_digits by assumption. f_equal. lia.
Qed.

Lemma daemonize_ok (w0 w1 : World) :
  daemonize PIDFILE "/dev/null" LOGFILE LOGFILE w0 = (Ok tt, w1) ->
  fs w0 !! PIDFILE = None
  ∧ is_Some (fs w0 !! "/dev/null")
  ∧ ∃ p1 p2, env_fork (env w0) (calls w0) = ForkChild p1
             ∧ env_fork (env w0) (S (calls w0)) = ForkChild p2
             ∧ w1 = daemonized w0 p2.
Proof.
  rewrite daemonize_cases.
  destruct (fs w0 !! PIDFILE); [discriminate|].
  destruct (env_fork (env w0) (calls w0)) as [?|?|p1]; try discriminate.
  cbv zeta.
  destruct (env_fork (env w0) (S (calls w0))) as [?|?|p2]; try discriminate.
  destruct (fs w0 !! "/dev/null") eqn:Hnull; [|discriminate].
  intros [= <-]. eauto 8.
Qed.

Lemma script_stop (w : World) (a0 : str) (fuel : nat) :
  script [a0; lit "stop"] fuel w
  = (ex ← os_path_exists PIDFILE;
     if ex : bool then
       f ← open_r PIDFILE;
       s ← file_read f;
       n ← int s;
       os_kill n SIGTERM
     else
       print_to Stderr (Format "Not running" []);;
       raise (SystemExit 1)) w.
Proof.
  unfold script. cbn [length Nat.eqb negb item nth_error].
  rewrite bind_ret.
  destruct (decide (lit "stop" = lit "start")) as [E|_]; [discriminate E|].
  destruct (decide (lit "stop" = lit "stop")) as [_|E]; [|contradiction].
  reflexivity.
Qed.

(** C9: after a successful [daemonize], the PID file holds the decimal
    process id of the process that came out of the second fork, followed
    by a newline; reading the file and parsing it with [int], as [stop]
    does, gives that id back, and [stop] sends SIGTERM to it. *)
Theorem pid_file_round_trip (w0 w1 w2 : World) (a0 : str) (fuel : nat) :
  daemonize PIDFILE "/dev/null" LOGFILE LOGFILE w0 = (Ok tt, w1) ->
  fs w2 !! PIDFILE = fs w1 !! PIDFILE ->
  (∃ p1 p2, env_fork (env w0) (calls w0) = ForkChild p1
            ∧ env_fork (env w0) (S (calls w0)) = ForkChild p2
            ∧ pid w1 = Z.pos p2)
  ∧ fs w1 !! PIDFILE = Some (blit (str_of_int (pid w1)) ++ [x0a])
  ∧ (s ← file_read PIDFILE; int s) w2 = (Ok (pid w1), w2)
  ∧ script [a0; lit "stop"] fuel w2
    = (match env_kill (env w2) (pid w1) with
       | Some e => Raise (OSError e)
       | None => Ok tt
       end, emit (KillCall (pid w1) SIGTERM) w2).
Proof.
  intros Hd Hshared.
  destruct (daemonize_ok _ _ Hd) as (_ & _ & p1 & p2 & Hf1 & Hf2 & ->).
  assert (Hfile : fs (daemonized w0 p2) !! PIDFILE
                  = Some (blit (str_of_int (Z.pos p2)) ++ [x0a]))
    by apply lookup_insert_eq.
  rewrite Hfile in Hshared.
  destruct (int_round_trip (Z.pos p2)) as (s & Hdec & Hint).
  assert (Hread : file_read PIDFILE w2 = (Ok s, w2)).
  { unfold file_read, contents. rewrite Hshared. cbn [default from_option id].
    now rewrite Hdec. }
  assert (Hparse : (s ← file_read PIDFILE; int s) w2 = (Ok (Z.pos p2), w2)).
  { rewrite (bind_ok _ _ _ _ _ Hread). unfold int. now rewrite Hint. }
  split; [eauto|]. split; [exact Hfile|]. split; [exact Hparse|].
  rewrite script_stop.
  unfold mbind at 1, M_bind at 1, os_path_exists at 1, get at 1.
  rewrite Hshared.
  unfold mbind at 1, M_bind at 1, open_r at 1. rewrite Hshared.
  rewrite (bind_ok _ _ _ _ _ Hread).
  unfold int. rewrite Hint, bind_ret. unfold os_kill.
  cbn [pid daemonized].
  now destruct (env_kill (env w2) (Z.pos p2)).
Qed.

Lemma pid_file_round_trip_witness :
  (∃ p1 p2, forks_succeed 0 = ForkChild p1
            ∧ forks_succeed 1 = ForkChild p2
            ∧ pid (daemonized idle_world 4002) = Z.pos p2)
  ∧ fs (daemonized idle_world 4002) !! PIDFILE
    = Some (blit (str_of_int (pid (daemonized idle_world 4002))) ++ [x0a])
  ∧ (s ← file_read PIDFILE; int s) busy_world = (Ok 4002, busy_world)
  ∧ script [lit "stumfixer.py"; lit "stop"] 0 busy_world
    = (Ok tt, emit (KillCall 4002 SIGTERM) busy_world).
Proof.
  apply (pid_file_round_trip idle_world (daemonized idle_world 4002)
           busy_world (lit "stumfixer.py") 0).
  - reflexivity.
  - reflexivity.
Defined.

(** ** The ways out of the daemon *)

Lemma PIDFILE_LOGFILE : LOGFILE <> PIDFILE.
Proof. discriminate. Qed.

Lemma scan_keeps_world (lines : list bytes) :
  ∀ st w, snd (for_each scan_line st lines w) = w.
Proof.
  induction lines as [|l lines IH]; intros st w; [reflexivity|].
  cbn [for_each]. unfold mbind, M_bind.
  destruct (scan_line st l w) as [r w'] eqn:Hl.
  assert (w' = w) as ->.
  { revert Hl. unfold scan_line, bytes_decode. mrun.
    destruct (decode_utf8 l); [|now intros [= _ <-]].
    repeat (match goal with |- context [if ?b then _ else _] =>
                              destruct b end);
      now intros [= _ <-]. }
  destruct r; [apply IH|reflexivity..].
Qed.

Lemma get_audio_info_world (w : World) : snd (get_audio_info w) = observed w.
Proof.
  destruct (env_popen (env w) (calls w) pacmd_list_cards) as [out|e] eqn:Hout.
  - rewrite (get_audio_info_scan w out Hout). unfold mbind, M_bind.
    pose proof (scan_keeps_world (readlines out) (None, None) (observed w))
      as H.
    destruct (for_each scan_line (None, None) (readlines out) (observed w))
      as [[st| |] w']; cbn in H; subst w'; [|reflexivity..].
    now destruct (snd st).
  - unfold get_audio_info, Popen, try_except.
    unfold mbind at 1, M_bind at 1. now rewrite Hout.
Qed.

Lemma switch_audio_to_world (w : World) (active name : str) :
  snd (switch_audio_to active name w) = w
  ∨ snd (switch_audio_to active name w) = switched w name.
Proof.
  destruct (decide (active = name)) as [E|E].
  - left. unfold switch_audio_to.
    now destruct (decide (active = name)).
  - right. now rewrite switch_audio_to_differ.
Qed.

Lemma check_log_file_size_world (w : World) :
  snd (check_log_file_size w) = w
  ∨ snd (check_log_file_size w)
    = emit (cleanup_notice w) (set_fs (<[LOGFILE := []]> (fs w)) w).
Proof.
  rewrite check_log_file_size_cases.
  destruct (fs w !! LOGFILE) as [c|]; [|now left].
  destruct (MAXLOGSIZE <? Z.of_nat (length c)); [now right|now left].
Qed.

Lemma daemon_step_ready (w w' : World) :
  daemon_step w w' -> daemon_ready w -> daemon_ready w'.
Proof.
  intros Hstep (Hsig & Hat & Hpid & Hout).
  destruct Hstep as [| |active name| |].
  - now repeat split.
  - rewrite get_audio_info_world. now repeat split.
  - destruct (switch_audio_to_world w active name) as [-> | ->];
      now repeat split.
  - destruct (check_log_file_size_world w) as [-> | ->];
      [now repeat split|].
    repeat split; try assumption.
    cbn [fs emit set_trace set_fs].
    now rewrite lookup_insert_ne by apply PIDFILE_LOGFILE.
  - now repeat split.
Qed.

Lemma daemonized_ready (w0 : World) (self : positive) :
  atexit w0 = [] -> daemon_ready (daemonized w0 self).
Proof.
  intros Hat. repeat split.
  - cbn [atexit daemonized]. now rewrite Hat.
  - cbn [fs daemonized]. rewrite lookup_insert_eq. eauto.
Qed.

Lemma daemon_at_ready (w0 w : World) : daemon_at w0 w -> daemon_ready w.
Proof.
  intros (Hfresh & w1 & Hd & Hsteps).
  assert (Hw1 : daemon_ready w1).
  { destruct (daemonize_ok _ _ Hd) as (_ & _ & p1 & p2 & _ & _ & ->).
    now apply daemonized_ready. }
  clear Hd. induction Hsteps as [|w1 w2 w3 Hstep _ IH]; [exact Hw1|].
  apply IH. now apply (daemon_step_ready w1).
Qed.

Lemma iteration_steps (w : World) : rtc daemon_step w (snd (iteration w)).
Proof.
  pose proof (step_observe w) as Hobs.
  destruct (get_audio_info w) as [[[active [product|]]|e|] w1] eqn:Hget;
    cbn [snd] in Hobs.
  - rewrite (iteration_observed _ _ _ _ Hget).
    apply (rtc_l _ _ w1); [exact Hobs|].
    pose proof (step_apply w1 active (wanted product)) as Happly.
    unfold mbind at 1, M_bind at 1.
    destruct (switch_audio_to active (wanted product) w1) as [[[]|e|] w2];
      cbn [snd] in Happly; try (now apply rtc_once).
    apply (rtc_l _ _ w2); [exact Happly|].
    pose proof (step_guard w2) as Hguard.
    unfold mbind at 1, M_bind at 1.
    destruct (check_log_file_size w2) as [[[]|e|] w3];
      cbn [snd] in Hguard; try (now apply rtc_once).
    apply (rtc_l _ _ w3); [exact Hguard|].
    apply rtc_once. apply step_sleep.
  - unfold iteration. rewrite (bind_ok _ _ _ _ _ Hget).
    now apply rtc_once.
  - unfold iteration. rewrite (bind_raise _ _ _ _ _ Hget).
    now apply rtc_once.
  - unfold iteration. rewrite (bind_running _ _ _ _ Hget).
    now apply rtc_once.
Qed.

Lemma main_loop_steps (fuel : nat) :
  ∀ w, rtc daemon_step w (snd (main_loop fuel w)).
Proof.
  induction fuel as [|n IH]; intros w; [apply rtc_refl|].
  cbn [main_loop]. pose proof (iteration_steps w) as Hit.
  unfold mbind, M_bind.
  destruct (iteration w) as [[[]|e|] w1]; cbn [snd] in Hit |- *;
    try exact Hit.
  etrans; [exact Hit|apply IH].
Qed.

Lemma main_steps (fuel : nat) (w : World) :
  rtc daemon_step w (snd (main fuel w)).
Proof.
  unfold main. apply (rtc_l _ _ (snd (banner w))); [apply step_banner|].
  unfold mbind at 1, M_bind at 1.
  change (banner w) with (Ok tt, snd (banner w)).
  apply main_loop_steps.
Qed.

(** A file that is not there stays away while the callbacks run. *)
Lemma run_exitfuncs_absent (path : string) (cs : list callback) :
  ∀ w, fs w !! path = None -> fs (run_exitfuncs cs w) !! path = None.
Proof.
  induction cs as [|[q] cs IH]; intros w Hw; [exact Hw|].
  cbn [run_exitfuncs run_callback]. unfold os_remove.
  destruct (fs w !! q); apply IH; cbn [fs emit set_trace set_fs];
    [|exact Hw].
  rewrite lookup_delete. case_decide; [reflexivity|exact Hw].
Qed.

(** A file whose removal is registered is not there after the callbacks. *)
Lemma run_exitfuncs_removes (path : string) (cs : list callback) :
  In (RemoveFile path) cs ->
  ∀ w, fs (run_exitfuncs cs w) !! path = None.
Proof.
  induction cs as [|[q] cs IH]; intros Hin w; [destruct Hin|].
  cbn [run_exitfuncs run_callback]. unfold os_remove.
  destruct Hin as [[= ->]|Hin].
  - destruct (fs w !! path) eqn:Hw; apply run_exitfuncs_absent;
      cbn [fs emit set_trace set_fs]; [|exact Hw].
    apply lookup_delete_eq.
  - destruct (fs w !! q); now apply IH.
Qed.

(** The ways the main flow can end, for a process whose only registered
    callback removes the PID file. *)
Lemma py_exit_removes (r : result unit) (w : World) :
  atexit w = [RemoveFile PIDFILE] ->
  r <> Running ->
  ∃ code w', py_exit r w = (Exited code, w') ∧ fs w' !! PIDFILE = None.
Proof.
  intros Hat Hr.
  assert (Hrev : ∀ w', atexit w' = atexit w ->
                       In (RemoveFile PIDFILE) (rev (atexit w'))).
  { intros w' ->. rewrite Hat. now left. }
  destruct r as [[]|e|]; [| |contradiction].
  - do 2 eexists. split; [reflexivity|].
    now apply run_exitfuncs_removes, Hrev.
  - destruct e; do 2 eexists; (split; [reflexivity|]);
      now apply run_exitfuncs_removes, Hrev.
Qed.





(** X14: the whole of [start], looked at for any number of iterations:
    either the launch ends before there is a daemon, or the daemon is alive
    and the PID file is there, or the process has ended and the PID file is
    gone. *)
Lemma start_pid_file_iff_alive (w0 : World) (a0 : str) (fuel : nat) :
  atexit w0 = [] ->
  let '(st, w) := run [a0; lit "start"] fuel w0 in
  (∃ r w', r <> Ok tt
           ∧ daemonize PIDFILE "/dev/null" LOGFILE LOGFILE w0 = (r, w'))
  ∨ (st = Alive ∧ is_Some (fs w !! PIDFILE))
  ∨ (∃ code, st = Exited code ∧ fs w !! PIDFILE = None).
Proof.
  intros Hfresh. unfold run, script.
  cbn [length Nat.eqb negb item nth_error]. rewrite bind_ret.
  destruct (decide (lit "start" = lit "start")) as [_|E]; [|contradiction].
  unfold mbind at 1, M_bind at 1, try_except.
  destruct (daemonize PIDFILE "/dev/null" LOGFILE LOGFILE w0)
    as [[[]|e|] w1] eqn:Hd.
  - pose proof (main_steps fuel w1) as Hsteps.
    assert (Hready : daemon_ready (snd (main fuel w1))).
    { apply (daemon_at_ready w0). split; [exact Hfresh|]. eauto. }
    destruct (main fuel w1) as [r w2]. cbn [snd] in Hready.
    destruct Hready as (_ & Hcb & Hpid & _).
    destruct r as [[]|e|].
    + destruct (py_exit_removes (Ok tt) w2 Hcb) as (c & w' & -> & Hgone);
        [discriminate|eauto].
    + destruct (py_exit_removes (Raise e) w2 Hcb) as (c & w' & -> & Hgone);
        [discriminate|eauto].
    + right. left. now split.
  - match goal with |- (let '(_, _) := ?x in _) => destruct x end.
    left. exists (Raise e), w1. split; [discriminate|reflexivity].
  - match goal with |- (let '(_, _) := ?x in _) => destruct x end.
    left. exists Running, w1. split; [discriminate|reflexivity].
Qed.

(** * Further properties *)

(** ** The ways through a launch *)

Lemma script_start (w : World) (a0 : str) (fuel : nat) :
  script [a0; lit "start"] fuel w
  = (try_except (daemonize PIDFILE "/dev/null" LOGFILE LOGFILE)
       is_RuntimeError report_and_leave;;
     main fuel) w.
Proof.
  unfold script. cbn [length Nat.eqb negb item nth_error].
  rewrite bind_ret.
  destruct (decide (lit "start" = lit "start")) as [_|E]; [|contradiction].
  reflexivity.
Qed.

(** [start] when [daemonize] does not return: the process ends as the
    exception of [daemonize] says, after the message of a [RuntimeError]. *)
Lemma run_start_raise (w w1 : World) (a0 : str) (fuel : nat) (e : exn) :
  daemonize PIDFILE "/dev/null" LOGFILE LOGFILE w = (Raise e, w1) ->
  run [a0; lit "start"] fuel w
  = match e with
    | RuntimeError msg =>
      py_exit (@Raise unit (SystemExit 1))
        (emit (Print Stderr (stderr_to w1) msg) w1)
    | _ => py_exit (@Raise unit e) w1
    end.
Proof.
  intros Hd. unfold run. rewrite script_start.
  unfold mbind, M_bind, try_except. rewrite Hd.
  destruct e; reflexivity.
Qed.

(** X1: when a fork fails, [start] prints [fork #1 failed.] or
    [fork #2 failed.] on the error stream, which is still bound as it was
    when the process started, and exits with code 1; no file is created or
    changed. *)
Theorem fork_failure_is_reported (w : World) (a0 : str) (fuel : nat) :
  atexit w = [] ->
  fs w !! PIDFILE = None ->
  (∀ e, env_fork (env w) (calls w) = ForkError e ->
     run [a0; lit "start"] fuel w
     = (Exited 1,
        emit (Print Stderr (stderr_to w) (Format "fork #1 failed." []))
          (set_calls (S (calls w)) w)))
  ∧ (∀ p1 e, env_fork (env w) (calls w) = ForkChild p1 ->
       env_fork (env w) (S (calls w)) = ForkError e ->
       let w1 := in_own_session (forked p1 w) in
       run [a0; lit "start"] fuel w
       = (Exited 1,
          emit (Print Stderr (stderr_to w) (Format "fork #2 failed." []))
            (set_calls (S (calls w1)) w1))
       ∧ fs (set_calls (S (calls w1)) w1) = fs w).
Proof.
  intros Hat Hpid. split.
  - intros e Hf.
    rewrite (run_start_raise w (set_calls (S (calls w)) w) a0 fuel
               (RuntimeError (Format "fork #1 failed." []))).
    + cbn [py_exit atexit emit set_trace set_calls]. now rewrite Hat.
    + now rewrite daemonize_cases, Hpid, Hf.
  - intros p1 e Hf1 Hf2 w1. split; [|reflexivity].
    rewrite (run_start_raise w (set_calls (S (calls w1)) w1) a0 fuel
               (RuntimeError (Format "fork #2 failed." []))).
    + cbn [py_exit atexit emit set_trace set_calls]. unfold w1.
      cbn [atexit in_own_session forked set_session_leader set_umask
           set_cwd set_pid set_calls]. now rewrite Hat.
    + now rewrite daemonize_cases, Hpid, Hf1, Hf2.
Qed.

Lemma fork_failure_is_reported_witness :
  (let w := fork_world first_fork_fails in
   run [lit "stumfixer.py"; lit "start"] 1 w
   = (Exited 1,
      emit (Print Stderr (stderr_to w) (Format "fork #1 failed." []))
        (set_calls (S (calls w)) w)))
  ∧ (let w := fork_world second_fork_fails in
     let w1 := in_own_session (forked 4001 w) in
     run [lit "stumfixer.py"; lit "start"] 1 w
     = (Exited 1,
        emit (Print Stderr (stderr_to w) (Format "fork #2 failed." []))
          (set_calls (S (calls w1)) w1))
     ∧ fs (set_calls (S (calls w1)) w1) = fs w).
Proof.
  destruct (fork_failure_is_reported (fork_world first_fork_fails)
              (lit "stumfixer.py") 1) as [H1 _]; [reflexivity..|].
  destruct (fork_failure_is_reported (fork_world second_fork_fails)
              (lit "stumfixer.py") 1) as [_ H2]; [reflexivity..|].
  split.
  - apply (H1 EAGAIN). reflexivity.
  - apply (H2 4001%positive EAGAIN); reflexivity.
Defined.

(** X2: on the parent's side of either fork, [start] ends with exit code 0
    without a word: nothing is printed and no file is created or changed. *)
Theorem fork_parent_leaves_quietly (w : World) (a0 : str) (fuel : nat) :
  atexit w = [] ->
  fs w !! PIDFILE = None ->
  (∀ child, env_fork (env w) (calls w) = ForkParent child ->
     run [a0; lit "start"] fuel w = (Exited 0, set_calls (S (calls w)) w))
  ∧ (∀ p1 child, env_fork (env w) (calls w) = ForkChild p1 ->
       env_fork (env w) (S (calls w)) = ForkParent child ->
       let w1 := in_own_session (forked p1 w) in
       run [a0; lit "start"] fuel w = (Exited 0, set_calls (S (calls w1)) w1)
       ∧ fs (set_calls (S (calls w1)) w1) = fs w
       ∧ trace (set_calls (S (calls w1)) w1) = trace w).
Proof.
  intros Hat Hpid. split.
  - intros child Hf.
    rewrite (run_start_raise w (set_calls (S (calls w)) w) a0 fuel
               (SystemExit 0)).
    + cbn [py_exit atexit set_calls]. now rewrite Hat.
    + now rewrite daemonize_cases, Hpid, Hf.
  - intros p1 child Hf1 Hf2 w1. split; [|split; reflexivity].
    rewrite (run_start_raise w (set_calls (S (calls w1)) w1) a0 fuel
               (SystemExit 0)).
    + cbn [py_exit atexit set_calls]. unfold w1.
      cbn [atexit in_own_session forked set_session_leader set_umask
           set_cwd set_pid set_calls]. now rewrite Hat.
    + now rewrite daemonize_cases, Hpid, Hf1, Hf2.
Qed.

Lemma fork_parent_leaves_quietly_witness :
  (let w := fork_world first_fork_parent in
   run [lit "stumfixer.py"; lit "start"] 1 w
   = (Exited 0, set_calls (S (calls w)) w))
  ∧ (let w := fork_world second_fork_parent in
     let w1 := in_own_session (forked 4001 w) in
     run [lit "stumfixer.py"; lit "start"] 1 w
     = (Exited 0, set_calls (S (calls w1)) w1)
     ∧ fs (set_calls (S (calls w1)) w1) = fs w
     ∧ trace (set_calls (S (calls w1)) w1) = trace w).
Proof.
  destruct (fork_parent_leaves_quietly (fork_world first_fork_parent)
              (lit "stumfixer.py") 1) as [H1 _]; [reflexivity..|].
  destruct (fork_parent_leaves_quietly (fork_world second_fork_parent)
              (lit "stumfixer.py") 1) as [_ H2]; [reflexivity..|].
  split.
  - apply (H1 4001%positive). reflexivity.
  - apply (H2 4001%positive 4002%positive); reflexivity.
Defined.



(** X4: a [daemonize] that returns leaves a process that is not a session
    leader, works in [/] with umask 0, reads from [/dev/null] and writes
    both output streams to the log file. The log file is there afterwards
    with what it held before, every file but the PID file and the log file
    is as it was, and nothing was written on the way. *)
Theorem daemonize_detaches (w0 w1 : World) :
  daemonize PIDFILE "/dev/null" LOGFILE LOGFILE w0 = (Ok tt, w1) ->
  session_leader w1 = false ∧ cwd w1 = "/"%string ∧ umask w1 = 0
  ∧ stdin_to w1 = File "/dev/null"
  ∧ stdout_to w1 = File LOGFILE ∧ stderr_to w1 = File LOGFILE
  ∧ trace w1 = trace w0
  ∧ fs w1 !! LOGFILE = Some (default [] (fs w0 !! LOGFILE))
  ∧ (∀ path, path <> PIDFILE -> path <> LOGFILE ->
       fs w1 !! path = fs w0 !! path).
Proof.
  intros Hd.
  destruct (daemonize_ok _ _ Hd) as (_ & _ & p1 & p2 & _ & _ & ->).
  do 7 (split; [reflexivity|]). cbn [fs daemonized]. split.
  - rewrite lookup_insert_ne by (intros E; now apply PIDFILE_LOGFILE).
    unfold created. destruct (fs w0 !! LOGFILE) eqn:E; [exact E|].
    now rewrite lookup_insert_eq.
  - intros path Hpid Hlog. rewrite lookup_insert_ne by congruence.
    unfold created. destruct (fs w0 !! LOGFILE); [reflexivity|].
    now rewrite lookup_insert_ne by congruence.
Qed.

Lemma daemonize_detaches_witness :
  let w1 := daemonized idle_world 4002 in
  session_leader w1 = false ∧ cwd w1 = "/"%string ∧ umask w1 = 0
  ∧ stdin_to w1 = File "/dev/null"
  ∧ stdout_to w1 = File LOGFILE ∧ stderr_to w1 = File LOGFILE
  ∧ trace w1 = trace idle_world
  ∧ fs w1 !! LOGFILE = Some (default [] (fs idle_world !! LOGFILE))
  ∧ (∀ path, path <> PIDFILE -> path <> LOGFILE ->
       fs w1 !! path = fs idle_world !! path).
Proof.
  apply (daemonize_detaches idle_world (daemonized idle_world 4002)).
  reflexivity.
Defined.

(** ** Reading the output of [pacmd list-cards] *)

Lemma lstrip_spaces (ws t : str) :
  Forall (λ c, isspace c = true) ws -> lstrip (ws ++ t) = lstrip t.
Proof.
  induction 1 as [|c ws Hc _ IH]; [reflexivity|].
  cbn [app lstrip]. now rewrite Hc.
Qed.

(** [strip] takes the white space around a text that neither starts nor
    ends with white space. *)
Lemma strip_padded (indent s tail : str) :
  Forall (λ c, isspace c = true) indent ->
  Forall (λ c, isspace c = true) tail ->
  (∃ c r, s = c :: r ∧ isspace c = false) ->
  (∃ r c, s = r ++ [c] ∧ isspace c = false) ->
  strip (indent ++ s ++ tail) = s.
Proof.
  intros Hin Htl (c & r & Hs & Hc) (r' & c' & Hs' & Hc').
  unfold strip, rstrip. rewrite (lstrip_spaces _ _ Hin).
  assert (Hleft : lstrip (s ++ tail) = s ++ tail).
  { rewrite Hs. cbn [app lstrip]. now rewrite Hc. }
  rewrite Hleft, rev_app_distr.
  rewrite lstrip_spaces by now apply Forall_rev.
  rewrite Hs', rev_unit. cbn [lstrip]. rewrite Hc'.
  cbn [rev]. now rewrite rev_involutive.
Qed.

Lemma startswith_app (s p r : str) :
  startswith s p = true -> startswith (s ++ r) p = true.
Proof.
  revert s. induction p as [|a p IH]; intros s H; [now destruct (s ++ r)|].
  destruct s as [|b s]; [discriminate|].
  cbn [startswith app] in *. apply andb_true_iff in H as [-> H].
  now apply IH.
Qed.

(** [s[n:-1]] is what stands between the first [n] and the last
    character. *)
Lemma slice_inner (pre name : str) (c : N) :
  slice (pre ++ name ++ [c]) (Z.of_nat (length pre)) (-1) = name.
Proof.
  unfold slice, clamp_index.
  rewrite !length_app. cbn [length].
  destruct (Z.ltb_spec (Z.of_nat (length pre)) 0) as [|_]; [lia|].
  cbn [Z.ltb Z.compare].
  replace (Z.to_nat (Z.max 0 (Z.min (Z.of_nat (length pre + (length name + 1)))
                                (Z.of_nat (length pre)))))
    with (length pre) by lia.
  replace (Z.to_nat _) with (length name) by lia.
  rewrite skipn_app, Nat.sub_diag, skipn_all. cbn [app skipn].
  change (drop 0 (name ++ [c])) with (name ++ [c]).
  rewrite firstn_app, Nat.sub_diag, firstn_all. cbn [firstn].
  apply app_nil_r.
Qed.

(** X5: from a line that, between white space, reads
    [active profile: <NAME>], [scan_line] takes [NAME] as the active
    profile; from a line that reads [device.product.name = "NAME"] it takes
    [NAME] as the product, whatever [NAME] is. The last character of the
    line is dropped unseen. *)
Theorem scan_line_extracts
  (st : option str * option str) (line : bytes)
  (indent name tail : str) (close : N) (w : World) :
  Forall (λ c, isspace c = true) indent ->
  Forall (λ c, isspace c = true) tail ->
  isspace close = false ->
  (decode_utf8 line = Some (indent ++ profile_head ++ name ++ close :: tail) ->
   scan_line st line w = (Ok (fst st, Some name), w))
  ∧ (decode_utf8 line
     = Some (indent ++ product_head ++ name ++ close :: tail) ->
     scan_line st line w = (Ok (Some name, snd st), w)).
Proof.
  intros Hin Htl Hclose.
  assert (Hstrip : ∀ head c r, head = c :: r -> isspace c = false ->
            strip (indent ++ head ++ name ++ close :: tail)
            = head ++ name ++ [close]).
  { intros head c r Hhead Hc.
    replace (indent ++ head ++ name ++ close :: tail)
      with (indent ++ (head ++ name ++ [close]) ++ tail)
      by (now rewrite <- !app_assoc).
    apply strip_padded; try assumption.
    - exists c, (r ++ name ++ [close]). now rewrite Hhead.
    - exists (head ++ name), close. now rewrite <- app_assoc. }
  split; intros Hdec; unfold scan_line, bytes_decode; rewrite Hdec, bind_ret.
  - rewrite (Hstrip profile_head _ _ eq_refl eq_refl).
    rewrite (startswith_app profile_head (lit "active profile") _ eq_refl).
    change 17 with (Z.of_nat (length profile_head)).
    now rewrite slice_inner.
  - rewrite (Hstrip product_head _ _ eq_refl eq_refl).
    change (startswith (product_head ++ name ++ [close]) (lit "active profile"))
      with false.
    rewrite (startswith_app product_head (lit "device.product.name") _
               eq_refl).
    change 23 with (Z.of_nat (length product_head)).
    now rewrite slice_inner.
Qed.

Lemma scan_line_extracts_witness :
  (scan_line (None, None)
     ([x09] ++ blit "active profile: <output:hdmi-stereo>" ++ [x0a])
     idle_world
   = (Ok (None, Some hdmi), idle_world))
  ∧ (scan_line (None, Some hdmi)
       ([x09; x09] ++ blit "device.product.name = " ++ double_quote
        ++ blit "DELL U2412M" ++ double_quote ++ [x0a])
       idle_world
     = (Ok (Some (lit "DELL U2412M"), Some hdmi), idle_world)).
Proof.
  split.
  - apply (scan_line_extracts (None, None) _ [9%N] hdmi [10%N] 62%N idle_world);
      [repeat constructor..|reflexivity|vm_compute; reflexivity].
  - apply (scan_line_extracts (None, Some hdmi) _ [9%N; 9%N]
             (lit "DELL U2412M") [10%N] 34%N idle_world);
      [repeat constructor..|reflexivity|vm_compute; reflexivity].
Defined.

Lemma for_each_app {A S} (body : S -> A -> M S) (a b : list A) :
  ∀ st w, for_each body st (a ++ b) w
          = (st' ← for_each body st a; for_each body st' b) w.
Proof.
  induction a as [|x a IH]; intros st w; [reflexivity|].
  cbn [app for_each]. unfold mbind, M_bind in *.
  destruct (body st x w) as [[st1| |] w1]; [apply IH|reflexivity..].
Qed.

Lemma scan_line_decoded (st : option str * option str) (line : bytes)
  (s : str) (w : World) :
  decode_utf8 line = Some s ->
  scan_line st line w
  = (Ok (if startswith (strip s) (lit "active profile")
         then (fst st, Some (slice (strip s) 17 (-1)))
         else if startswith (strip s) (lit "device.product.name")
              then (Some (slice (strip s) 23 (-1)), snd st)
              else st), w).
Proof.
  intros Hdec. unfold scan_line, bytes_decode. rewrite Hdec, bind_ret.
  destruct (startswith (strip s) (lit "active profile")); [reflexivity|].
  now destruct (startswith (strip s) (lit "device.product.name")).
Qed.

(** Lines that are UTF-8 are scanned to the end. *)
Lemma scan_decodable (lines : list bytes) :
  Forall (λ x, is_Some (decode_utf8 x)) lines ->
  ∀ st w, ∃ st', for_each scan_line st lines w = (Ok st', w).
Proof.
  induction 1 as [|l lines [s Hs] _ IH]; intros st w; [now exists st|].
  cbn [for_each]. rewrite (bind_ok _ _ _ _ _ (scan_line_decoded st l s w Hs)).
  apply IH.
Qed.

(** The scan, once the lines before [l] are through. *)
Lemma scan_from (pre post : list bytes) (l : bytes) (w : World) :
  Forall (λ x, is_Some (decode_utf8 x)) pre ->
  ∃ st, for_each scan_line (None, None) (pre ++ l :: post) w
        = (st' ← scan_line st l; for_each scan_line st' post) w.
Proof.
  intros Hpre.
  destruct (scan_decodable pre Hpre (None, None) w) as [st Hst].
  exists st. rewrite for_each_app, (bind_ok _ _ _ _ _ Hst). reflexivity.
Qed.

(** X6: the last line that names the active profile decides the profile
    that [get_audio_info] returns, and the last line that names a product
    decides the product, whatever stands in the lines before. *)
Theorem last_line_wins (w : World) (out : bytes) (pre post : list bytes)
  (l : bytes) :
  env_popen (env w) (calls w) pacmd_list_cards = PopenOutput out ->
  readlines out = pre ++ l :: post ->
  Forall (λ x, is_Some (decode_utf8 x)) pre ->
  (has_prefix (lit "active profile") l = Some true ->
   Forall (λ x, has_prefix (lit "active profile") x = Some false) post ->
   ∃ a product, profile_of l = Some a
                ∧ get_audio_info w = (Ok (a, product), observed w))
  ∧ (has_prefix (lit "active profile") l = Some false ->
     has_prefix (lit "device.product.name") l = Some true ->
     Forall (λ x, has_prefix (lit "device.product.name") x = Some false)
       post ->
     ∃ p, product_of l = Some p
          ∧ (get_audio_info w = (Raise no_active_profile, observed w)
             ∨ ∃ a, get_audio_info w = (Ok (a, Some p), observed w))).
Proof.
  intros Hout Hlines Hpre.
  rewrite (get_audio_info_scan w out Hout), Hlines.
  destruct (scan_from pre post l (observed w) Hpre) as [st Hscan].
  split.
  - intros Hl Hpost. unfold has_prefix in Hl. unfold profile_of.
    destruct (decode_utf8 l) as [s|] eqn:Hs; [|discriminate].
    cbn in Hl. injection Hl as Hl.
    pose proof (scan_line_decoded st l s (observed w) Hs) as Hline.
    rewrite Hl in Hline.
    destruct (scan_without_profile post Hpost
                (fst st, Some (slice (strip s) 17 (-1))) (observed w))
      as [product Hrest].
    exists (slice (strip s) 17 (-1)), product. split; [reflexivity|].
    unfold mbind at 1, M_bind at 1.
    rewrite Hscan, (bind_ok _ _ _ _ _ Hline), Hrest. reflexivity.
  - intros Hl Hp Hpost. unfold has_prefix in Hl, Hp. unfold product_of.
    destruct (decode_utf8 l) as [s|] eqn:Hs; [|discriminate].
    cbn in Hl, Hp. injection Hl as Hl. injection Hp as Hp.
    pose proof (scan_line_decoded st l s (observed w) Hs) as Hline.
    rewrite Hl, Hp in Hline.
    destruct (scan_without_product post Hpost
                (Some (slice (strip s) 23 (-1)), snd st) (observed w))
      as (a & Hrest & _).
    exists (slice (strip s) 23 (-1)). split; [reflexivity|].
    unfold mbind at 1 2, M_bind at 1 2.
    rewrite Hscan, (bind_ok _ _ _ _ _ Hline), Hrest.
    destruct a as [a|]; [right; now exists a|now left].
Qed.

Lemma last_line_wins_witness :
  (∃ a product,
     profile_of (profile_line "output:hdmi-stereo") = Some a
     ∧ get_audio_info two_monitors_world
       = (Ok (a, product), observed two_monitors_world))
  ∧ (∃ p, product_of (product_line "DELL U2412M") = Some p
          ∧ (get_audio_info two_monitors_world
             = (Raise no_active_profile, observed two_monitors_world)
             ∨ ∃ a, get_audio_info two_monitors_world
                    = (Ok (a, Some p), observed two_monitors_world))).
Proof.
  split.
  - apply (last_line_wins two_monitors_world cards_two_monitors
             [profile_line "output:analog-stereo"; product_line "BenQ GL2450"]
             [product_line "DELL U2412M"]
             (profile_line "output:hdmi-stereo")).
    + vm_compute. reflexivity.
    + vm_compute. reflexivity.
    + repeat (constructor; [vm_compute; eexists; reflexivity|]). constructor.
    + vm_compute. reflexivity.
    + repeat constructor.
  - apply (last_line_wins two_monitors_world cards_two_monitors
             [profile_line "output:analog-stereo"; product_line "BenQ GL2450";
              profile_line "output:hdmi-stereo"]
             [] (product_line "DELL U2412M")).
    + vm_compute. reflexivity.
    + vm_compute. reflexivity.
    + repeat (constructor; [vm_compute; eexists; reflexivity|]). constructor.
    + vm_compute. reflexivity.
    + vm_compute. reflexivity.
    + constructor.
Defined.

(** With two cards listed, the profile and the product of the second are
    what [get_audio_info] returns. *)
Example get_audio_info_two_monitors :
  get_audio_info two_monitors_world
  = (Ok (hdmi, Some (lit "DELL U2412M")), observed two_monitors_world).
Proof. vm_compute. reflexivity. Qed.





(** ** The log guard within the loop *)




(** X10: [check_log_file_size] touches no file but the log file, and a
    check that went through leaves nothing for a second check to do. *)
Theorem log_guard_settles (w : World) :
  (∀ path, path <> LOGFILE ->
     fs (snd (check_log_file_size w)) !! path = fs w !! path)
  ∧ (∀ w', check_log_file_size w = (Ok tt, w') ->
       check_log_file_size w' = (Ok tt, w')).
Proof.
  rewrite check_log_file_size_cases. split.
  - intros path Hpath. destruct (fs w !! LOGFILE) as [c|]; [|reflexivity].
    destruct (MAXLOGSIZE <? Z.of_nat (length c)); [|reflexivity].
    cbn [snd fs emit set_trace set_fs]. now apply lookup_insert_ne.
  - intros w'. destruct (fs w !! LOGFILE) as [c|] eqn:Hc; [|discriminate].
    destruct (Z.ltb_spec MAXLOGSIZE (Z.of_nat (length c))) as [Hbig|Hsmall];
      intros [= <-]; rewrite check_log_file_size_cases.
    + cbn [fs emit set_trace set_fs]. now rewrite lookup_insert_eq.
    + rewrite Hc.
      destruct (Z.ltb_spec MAXLOGSIZE (Z.of_nat (length c))); [lia|].
      reflexivity.
Qed.

Lemma log_guard_settles_witness :
  let w := daemon_world 1000001 in
  (∀ path, path <> LOGFILE ->
     fs (snd (check_log_file_size w)) !! path = fs w !! path)
  ∧ (∀ w', check_log_file_size w = (Ok tt, w') ->
       check_log_file_size w' = (Ok tt, w')).
Proof. apply (log_guard_settles (daemon_world 1000001)). Defined.

(** ** What [main] does and how it ends *)




















(** ** Stop, whatever the PID file holds *)






(** The PID file of a process that is gone: [stop] reports the failed
    signal and leaves the file, and [start] then still refuses. *)
Example stale_pid_file_stays :
  run [lit "stumfixer.py"; lit "stop"] 0 stale_world
  = (Exited 1,
     emit (Traceback Terminal (OSError ESRCH))
       (emit (KillCall 4002 SIGTERM) stale_world))
  ∧ run [lit "stumfixer.py"; lit "start"] 1 stale_world
    = (Exited 1, stale_world).
Proof. split; vm_compute; reflexivity. Qed.

(** ** The PID file over a whole launch *)

Lemma start_pid_file_iff_alive_witness :
  let '(st, w) := run [lit "stumfixer.py"; lit "start"] 2 idle_world in
  (∃ r w', r <> Ok tt
           ∧ daemonize PIDFILE "/dev/null" LOGFILE LOGFILE idle_world
             = (r, w'))
  ∨ (st = Alive ∧ is_Some (fs w !! PIDFILE))
  ∨ (∃ code, st = Exited code ∧ fs w !! PIDFILE = None).
Proof.
  apply (start_pid_file_iff_alive idle_world (lit "stumfixer.py") 2).
  reflexivity.
Defined.

(** ** Starting again *)




